(** * Shared utility functions of the real-estate site (js/utils.js)

    A shallow embedding of the financial helpers, the Texas county
    property-tax lookup and the mortgage-rate fetch-and-cache helper, with
    the properties of the written specification stated over it.

    JavaScript numbers are IEEE 754 binary64 values: they are modelled by
    Rocq's primitive floats, whose [+ - * /] round to nearest-even exactly as
    the JavaScript operators do, whose [=?] is [===] on numbers and whose
    [<?] is [<]. Decimal literals denote the nearest binary64 value, in
    JavaScript as here. *)

From Stdlib Require Import ZArith Floats Lia.
From stdpp Require Import base strings gmap pretty.

Set Warnings "-inexact-float,-register-all".

(* ===================================================================== *)
(** ** JavaScript values *)
(* ===================================================================== *)

Module JS.

(** The values the program handles: what [JSON.parse] produces, [undefined],
    and the built-in members a plain object inherits from
    [Object.prototype] (functions, and the prototype object itself for
    [__proto__]). *)
Inductive Value : Type :=
| VUndefined
| VNull
| VBool (b : bool)
| VNum (x : float)
| VStr (s : string)
| VArr (items : list Value)
| VObj (props : gmap string Value)
| VBuiltin (name : string).

(** Exceptions that can be thrown or be the reason of a rejected promise. *)
Inductive Exn : Type :=
| TypeError (message : string)
| SyntaxError (message : string)
| NetworkError (message : string)
| Error (message : string).

(** ToBoolean. *)
Definition truthy (v : Value) : bool :=
  match v with
  | VUndefined | VNull => false
  | VBool b => b
  | VNum x => negb (x =? 0)%float && (x =? x)%float
  | VStr s => negb (String.eqb s "")
  | VArr _ | VObj _ | VBuiltin _ => true
  end.

Definition nullish (v : Value) : bool :=
  match v with
  | VUndefined | VNull => true
  | _ => false
  end.

(** The property names every plain object inherits from [Object.prototype]. *)
Definition Object_prototype : list string :=
  [ "constructor"; "__defineGetter__"; "__defineSetter__"; "hasOwnProperty";
    "__lookupGetter__"; "__lookupSetter__"; "isPrototypeOf";
    "propertyIsEnumerable"; "toString"; "valueOf"; "__proto__";
    "toLocaleString" ].

Definition inherited (key : string) : Value :=
  if bool_decide (key ∈ Object_prototype) then VBuiltin key else VUndefined.

(** [o[key]] on a plain object: the own property when there is one, then the
    prototype chain, which for an object literal and for a parsed JSON
    object is [Object.prototype] alone. *)
Definition lookup_property (props : gmap string Value) (key : string) : Value :=
  match props !! key with
  | Some v => v
  | None => inherited key
  end.

(** [v[key]] on any value. Reading a property of [undefined] or [null]
    throws a TypeError. For the other values the own members and the members
    of their class prototypes (indices and [length], the methods of
    [Array.prototype], [String.prototype], [Number.prototype],
    [Boolean.prototype] and [Function.prototype]) are left out: the program
    reads only [rates], [thirtyYear], [fifteenYear], [rate], [source],
    [lastUpdated] and [error] on such values, none of which is among them. *)
Definition get (v : Value) (key : string) : Exn + Value :=
  match v with
  | VUndefined | VNull =>
      inl (TypeError ("Cannot read properties of undefined or null (reading '"
                        +:+ key +:+ "')"))
  | VObj props => inr (lookup_property props key)
  | VBool _ | VNum _ | VStr _ | VArr _ | VBuiltin _ => inr (inherited key)
  end.

End JS.

(* ===================================================================== *)
(** ** Mortgage amortization (utils.js, lines 45-62) *)
(* ===================================================================== *)

Module Amortization.

Section Host.

(** [Math.pow]: ECMAScript leaves its result implementation-approximated, so
    the host's function is a parameter of the model. *)
Variable Math_pow : float -> float -> float.

(** [calculateMonthlyPayment(principal, annualRate, years)]. The body has no
    [throw] and arithmetic on numbers never throws: a call on numbers always
    completes with a number, which is the only way it has to answer. *)
Definition calculateMonthlyPayment (principal annualRate years : float) : float :=
  let monthlyRate := (annualRate / 100 / 12)%float in
  let numPayments := (years * 12)%float in
  if (monthlyRate =? 0)%float then
    (principal / numPayments)%float
  else
    (principal *
       (monthlyRate * Math_pow (1 + monthlyRate) numPayments) /
       (Math_pow (1 + monthlyRate) numPayments - 1))%float.

(** The payment as section 4.3 of the specification words it, step by step. *)
Definition monthlyPayment_spec (principal annualRatePercent termYears : float) : float :=
  let monthlyRate := (annualRatePercent / 100 / 12)%float in
  let numPayments := (termYears * 12)%float in
  let growth := Math_pow (1 + monthlyRate) numPayments in
  if (monthlyRate =? 0)%float
  then (principal / numPayments)%float
  else (principal * (monthlyRate * growth) / (growth - 1))%float.

(** The payment as the claim about [monthlyPayment] words it: the branch is
    taken on the annual rate, and [r] and [n] are computed as stated. *)
Definition monthlyPayment_claimed (principal annualRatePercent termYears : float) : float :=
  let r := (annualRatePercent / 100 / 12)%float in
  let n := (termYears * 12)%float in
  if (annualRatePercent =? 0)%float
  then (principal / (termYears * 12))%float
  else (principal * (r * Math_pow (1 + r) n) / (Math_pow (1 + r) n - 1))%float.

End Host.

(** [calculateTotalInterest(principal, monthlyPayment, years)]. *)
Definition calculateTotalInterest (principal monthlyPayment years : float) : float :=
  ((monthlyPayment * years * 12) - principal)%float.

(** The total interest as the specification words it. *)
Definition totalInterest_spec (principal monthlyPayment termYears : float) : float :=
  (monthlyPayment * termYears * 12 - principal)%float.

(** The preconditions the specification puts on [monthlyPayment]. *)
Definition precondition (principal annualRatePercent termYears : float) : bool :=
  (0 <? principal)%float && (0 <=? annualRatePercent)%float && (0 <? termYears)%float.

(** A number is finite when it is neither a NaN nor an infinity. *)
Definition is_finite (x : float) : bool :=
  (x =? x)%float && (x <? infinity)%float && (neg_infinity <? x)%float.

(** What the specification forbids a payment to be when no error is
    signalled: negative or not finite. *)
Definition negative_or_not_finite (x : float) : bool :=
  (x <? 0)%float || negb (is_finite x).

(** [Number.MIN_VALUE], the smallest positive number (written [5e-324]). *)
Definition MIN_VALUE : float := 0x1p-1074%float.

(** A number that is a zero of either sign, or NaN. *)
Definition zero_or_nan (x : float) : Prop :=
  Prim2SF x = S754_nan \/ exists sign, Prim2SF x = S754_zero sign.

End Amortization.

(* ===================================================================== *)
(** ** Texas county property-tax rates (utils.js, lines 77-116) *)
(* ===================================================================== *)

Module CountyTax.
Import JS.

Definition county (name : string) (rate : float) : Value :=
  VObj {[ "name" := VStr name; "rate" := VNum rate ]}.

(** The own properties of the object literal [TEXAS_COUNTY_TAX_RATES]. *)
Definition TEXAS_COUNTY_TAX_RATES : gmap string Value :=
  list_to_map
    [ ("harris", county "Harris County (Houston)" 2.23);
      ("dallas", county "Dallas County" 2.18);
      ("tarrant", county "Tarrant County (Fort Worth)" 2.26);
      ("bexar", county "Bexar County (San Antonio)" 2.23);
      ("travis", county "Travis County (Austin)" 2.11);
      ("collin", county "Collin County" 2.17);
      ("denton", county "Denton County" 2.16);
      ("hidalgo", county "Hidalgo County" 2.15);
      ("fortbend", county "Fort Bend County" 2.48);
      ("williamson", county "Williamson County" 2.21);
      ("montgomery", county "Montgomery County" 2.27);
      ("elpaso", county "El Paso County" 2.53);
      ("cameron", county "Cameron County" 2.05);
      ("nueces", county "Nueces County (Corpus Christi)" 2.24);
      ("brazoria", county "Brazoria County" 2.35);
      ("bell", county "Bell County" 2.38);
      ("galveston", county "Galveston County" 2.32);
      ("lubbock", county "Lubbock County" 2.01);
      ("webb", county "Webb County (Laredo)" 2.38);
      ("jefferson", county "Jefferson County (Beaumont)" 2.28) ].

(** [getCountyTaxRate(countyKey)]: [county ? county.rate : 2.20]. The
    conditional reads [county.rate] only when [county] is truthy, so the
    read cannot throw; the branch that [get] would signal is unreachable and
    is given [undefined]. *)
Definition getCountyTaxRate (countyKey : string) : Value :=
  let county := lookup_property TEXAS_COUNTY_TAX_RATES countyKey in
  if truthy county then
    match get county "rate" with
    | inr rate => rate
    | inl _ => VUndefined
    end
  else VNum 2.20.

Definition is_number (v : Value) : bool :=
  match v with
  | VNum _ => true
  | _ => false
  end.

End CountyTax.

(* ===================================================================== *)
(** ** Mortgage rates API integration (utils.js, lines 150-202) *)
(* ===================================================================== *)

Module Rates.
Import JS.

Definition RATES_API_URL : string :=
  "https://realestate-api.aastha-dahal.workers.dev/api/rates".

(** The object [fetchMortgageRates] hands out. A field holds whatever value
    the response body had at that place; [isLive] is always a boolean. *)
Record RateSnapshot : Type := {
  thirtyYear : Value;
  fifteenYear : Value;
  source : Value;
  lastUpdated : Value;
  isLive : bool
}.

(** A reference to a snapshot object: its identity (the address it was
    allocated at) and its contents, which no code mutates once built. *)
Record Ref : Type := {
  addr : nat;
  fields : RateSnapshot
}.

(** The module-level variables [cachedRates] and [ratesCacheTime] ([None]
    is [null]), and the next free address. *)
Record State : Type := {
  cachedRates : option Ref;
  ratesCacheTime : option Z;
  nextAddr : nat
}.

Definition initial_state : State :=
  {| cachedRates := None; ratesCacheTime := None; nextAddr := 0 |}.

(** [60 * 60 * 1000], one hour in milliseconds. *)
Definition RATES_CACHE_DURATION : Z := 60 * 60 * 1000.

(** What [fetch] resolves to: the status, and what [response.json()] settles
    to (rejected when the body is not JSON text). *)
Record Response : Type := {
  status : Z;
  json_result : Exn + Value
}.

(** [response.ok]: the status is in the range 200-299. *)
Definition ok (r : Response) : bool :=
  (200 <=? status r)%Z && (status r <=? 299)%Z.

Inductive FetchOutcome : Type :=
| Rejected (reason : Exn)
| Fulfilled (response : Response).

(** What one call observes of the outside world: the clock when the cache is
    tested, the outcome of the request, and the clock once the request has
    settled (read by [ratesCacheTime = Date.now()] on success and by
    [new Date()] on failure). Clock readings are integral milliseconds since
    the epoch, far below 2^53, where number arithmetic is exact. *)
Record Env : Type := {
  now : Z;
  network : FetchOutcome;
  later : Z
}.

(** The observable effects of a call. *)
Inductive Event : Type :=
| Fetch (url : string)
| ConsoleError (message : string) (error : Exn).

(** *** A monad for state, exceptions and effects *)

Record Outcome (A : Type) : Type := {
  completion : Exn + A;
  final : State;
  trace : list Event
}.
Arguments completion {A} _.
Arguments final {A} _.
Arguments trace {A} _.

Definition M (A : Type) : Type := State -> Outcome A.

Definition ret {A : Type} (a : A) : M A :=
  fun s => {| completion := inr a; final := s; trace := [] |}.

Definition throw {A : Type} (e : Exn) : M A :=
  fun s => {| completion := inl e; final := s; trace := [] |}.

Definition bind {A B : Type} (m : M A) (k : A -> M B) : M B :=
  fun s =>
    match m s with
    | {| completion := inl e; final := s1; trace := t1 |} =>
        {| completion := inl e; final := s1; trace := t1 |}
    | {| completion := inr a; final := s1; trace := t1 |} =>
        match k a s1 with
        | {| completion := c; final := s2; trace := t2 |} =>
            {| completion := c; final := s2; trace := t1 ++ t2 |}
        end
    end.

(** [try { body } catch (e) { handler }]: what the body did to the state
    before it threw stays done. *)
Definition try_catch {A : Type} (body : M A) (handler : Exn -> M A) : M A :=
  fun s =>
    match body s with
    | {| completion := inl e; final := s1; trace := t1 |} =>
        match handler e s1 with
        | {| completion := c; final := s2; trace := t2 |} =>
            {| completion := c; final := s2; trace := t1 ++ t2 |}
        end
    | {| completion := inr a; final := s1; trace := t1 |} =>
        {| completion := inr a; final := s1; trace := t1 |}
    end.

Definition lift {A : Type} (c : Exn + A) : M A :=
  fun s => {| completion := c; final := s; trace := [] |}.

Definition emit (e : Event) : M unit :=
  fun s => {| completion := inr tt; final := s; trace := [e] |}.

Definition get_state : M State :=
  fun s => {| completion := inr s; final := s; trace := [] |}.

Definition set_cachedRates (r : Ref) : M unit :=
  fun s =>
    {| completion := inr tt;
       final := {| cachedRates := Some r; ratesCacheTime := ratesCacheTime s;
                   nextAddr := nextAddr s |};
       trace := [] |}.

Definition set_ratesCacheTime (t : Z) : M unit :=
  fun s =>
    {| completion := inr tt;
       final := {| cachedRates := cachedRates s; ratesCacheTime := Some t;
                   nextAddr := nextAddr s |};
       trace := [] |}.

(** Evaluating an object literal allocates a fresh object. *)
Definition new_object (snapshot : RateSnapshot) : M Ref :=
  fun s =>
    {| completion := inr {| addr := nextAddr s; fields := snapshot |};
       final := {| cachedRates := cachedRates s;
                   ratesCacheTime := ratesCacheTime s;
                   nextAddr := S (nextAddr s) |};
       trace := [] |}.

Declare Scope js_scope.
Delimit Scope js_scope with js.
Notation "x <- m ;; k" := (bind m (fun x => k))
  (at level 100, m at next level, right associativity) : js_scope.
Notation "m ;; k" := (bind m (fun _ => k))
  (at level 100, right associativity) : js_scope.

(** Exceptions alone, for expressions that touch no state. *)
Definition and_then {A B : Type} (c : Exn + A) (k : A -> Exn + B) : Exn + B :=
  match c with
  | inl e => inl e
  | inr a => k a
  end.

Declare Scope exn_scope.
Delimit Scope exn_scope with exn.
Notation "x <- c ;; k" := (and_then c (fun x => k))
  (at level 100, c at next level, right associativity) : exn_scope.

(** *** Host functions *)

(** [await fetch(url)]: the request is made, and a rejection is thrown. *)
Definition fetch (env : Env) (url : string) : M Response :=
  (emit (Fetch url) ;;
   match network env with
   | Rejected reason => throw reason
   | Fulfilled response => ret response
   end)%js.

(** Decimal digits of [x], the [width] low-order ones, zero-padded. *)
Fixpoint digits (width : nat) (x : Z) : string :=
  match width with
  | O => ""
  | S w => digits w (x / 10)%Z +:+ pretty (x mod 10)%Z
  end.

(** Year, month (1-12) and day of the month (1-31) of a day number counted
    from 1970-01-01, in the proleptic Gregorian calendar. *)
Definition civil_from_days (day : Z) : Z * Z * Z :=
  let z := (day + 719468)%Z in
  let era := (z / 146097)%Z in
  let doe := (z - era * 146097)%Z in
  let yoe := ((doe - doe / 1460 + doe / 36524 - doe / 146096) / 365)%Z in
  let doy := (doe - (365 * yoe + yoe / 4 - yoe / 100))%Z in
  let mp := ((5 * doy + 2) / 153)%Z in
  let d := (doy - (153 * mp + 2) / 5 + 1)%Z in
  let m := (if (mp <? 10)%Z then mp + 3 else mp - 9)%Z in
  let y := (yoe + era * 400 + (if (m <=? 2)%Z then 1 else 0))%Z in
  (y, m, d).

(** [new Date(t).toISOString()] for a time value [t] in milliseconds:
    [YYYY-MM-DDTHH:mm:ss.sssZ], with a signed six-digit year outside
    0-9999. *)
Definition toISOString (t : Z) : string :=
  let day := (t / 86400000)%Z in
  let ms := (t mod 86400000)%Z in
  let '(y, m, d) := civil_from_days day in
  let year :=
    if ((0 <=? y) && (y <=? 9999))%Z then digits 4 y
    else (if (y <? 0)%Z then "-" else "+") +:+ digits 6 (Z.abs y) in
  year +:+ "-" +:+ digits 2 m +:+ "-" +:+ digits 2 d +:+ "T" +:+
  digits 2 (ms / 3600000)%Z +:+ ":" +:+ digits 2 (ms / 60000 mod 60)%Z +:+ ":" +:+
  digits 2 (ms / 1000 mod 60)%Z +:+ "." +:+ digits 3 (ms mod 1000)%Z +:+ "Z".

Arguments toISOString : simpl never.

(** The template literal [`API error: ${response.status}`]. *)
Definition api_error_message (status : Z) : string :=
  "API error: " +:+ pretty status.

Arguments api_error_message : simpl never.

(** *** fetchMortgageRates

    The function is [async]: each [await] is a sequencing point, a rejected
    promise is an exception thrown at it, and the promise the function
    returns settles with the completion of the body. A call is modelled run
    to its end, calls one after another. *)

(** The cache test: [cachedRates && ratesCacheTime &&
    (Date.now() - ratesCacheTime < RATES_CACHE_DURATION)], yielding the
    cached object when it holds. An object is truthy; a number is truthy
    unless it is zero. *)
Definition fresh_cached (s : State) (t : Z) : option Ref :=
  match cachedRates s, ratesCacheTime s with
  | Some cached, Some fetched =>
      if negb (fetched =? 0)%Z && (t - fetched <? RATES_CACHE_DURATION)%Z
      then Some cached
      else None
  | _, _ => None
  end.

(** The object literal assigned to [cachedRates], its fields evaluated in
    source order. *)
Definition build_rates (data : Value) : Exn + RateSnapshot :=
  (rates <- get data "rates" ;;
   thirty <- get rates "thirtyYear" ;;
   rate30 <- get thirty "rate" ;;
   rates' <- get data "rates" ;;
   fifteen <- get rates' "fifteenYear" ;;
   rate15 <- get fifteen "rate" ;;
   src <- get data "source" ;;
   updated <- get data "lastUpdated" ;;
   err <- get data "error" ;;
   inr {| thirtyYear := rate30; fifteenYear := rate15; source := src;
          lastUpdated := updated; isLive := negb (truthy err) |})%exn.

(** The object literal returned from the [catch] block. *)
Definition fallback (t : Z) : RateSnapshot :=
  {| thirtyYear := VNum 6.5;
     fifteenYear := VNum 5.9;
     source := VStr "Fallback (offline)";
     lastUpdated := VStr (toISOString t);
     isLive := false |}.

(** [fetchMortgageRates()] (lines 165-202). After the two assignments
    [return cachedRates] hands out the object just stored. *)
Definition fetchMortgageRates (env : Env) : M Ref :=
  (s <- get_state ;;
   match fresh_cached s (now env) with
   | Some cached => ret cached
   | None =>
       try_catch
         (response <- fetch env RATES_API_URL ;;
          (if negb (ok response)
           then throw (Error (api_error_message (status response)))
           else ret tt) ;;
          data <- lift (json_result response) ;;
          snapshot <- lift (build_rates data) ;;
          object <- new_object snapshot ;;
          set_cachedRates object ;;
          set_ratesCacheTime (later env) ;;
          ret object)
         (fun error =>
            emit (ConsoleError "Failed to fetch mortgage rates:" error) ;;
            new_object (fallback (later env)))
   end)%js.

End Rates.

(* ===================================================================== *)
(** ** Vocabulary of the specification for the rates helper *)
(* ===================================================================== *)

Module RatesSpec.
Import JS Rates.

(** The error taxonomy of section 7. *)
Inductive ErrorKind : Type :=
| TransportError
| ProtocolError
| SchemaError.

(** What the [try] block of [fetchMortgageRates] ends with for a given
    outcome of the request: the exception thrown, or the snapshot built. *)
Definition try_result (n : FetchOutcome) : Exn + RateSnapshot :=
  match n with
  | Rejected reason => inl reason
  | Fulfilled response =>
      if ok response then
        (data <- json_result response ;; build_rates data)%exn
      else inl (Error (api_error_message (status response)))
  end.

(** The failures the code detects, that is what makes the [try] block
    throw, each under the kind the specification files it: the request did
    not complete; the status is not 2xx; the body is not JSON or reading
    the expected fields throws. [None] when the [try] block runs to its
    end. This is narrower than the specification's schema error, which is
    any body that departs from the expected shape: see [spec_failure]. *)
Definition detected_failure (n : FetchOutcome) : option ErrorKind :=
  match n with
  | Rejected _ => Some TransportError
  | Fulfilled response =>
      if ok response then
        match json_result response with
        | inl _ => Some SchemaError
        | inr data =>
            match build_rates data with
            | inl _ => Some SchemaError
            | inr _ => None
            end
        end
      else Some ProtocolError
  end.

(** The state after an object has been allocated and nothing else changed. *)
Definition after_allocation (s : State) : State :=
  {| cachedRates := cachedRates s; ratesCacheTime := ratesCacheTime s;
     nextAddr := S (nextAddr s) |}.

(** The outcome of a call that fell back after exception [e]. *)
Definition fell_back (env : Env) (s : State) (e : Exn) : Outcome Ref :=
  {| completion := inr {| addr := nextAddr s; fields := fallback (later env) |};
     final := after_allocation s;
     trace := [Fetch RATES_API_URL;
               ConsoleError "Failed to fetch mortgage rates:" e] |}.

(** The outcome of a call that fetched and cached [snapshot]. *)
Definition fetched (env : Env) (s : State) (snapshot : RateSnapshot) : Outcome Ref :=
  let object := {| addr := nextAddr s; fields := snapshot |} in
  {| completion := inr object;
     final := {| cachedRates := Some object;
                 ratesCacheTime := Some (later env);
                 nextAddr := S (nextAddr s) |};
     trace := [Fetch RATES_API_URL] |}.

(** The state after a sequence of calls, the first of them made when the
    page has just loaded; each call has its own clock readings and its own
    answer from the network. *)
Definition run_calls (envs : list Env) : State :=
  fold_left (fun s env => final (fetchMortgageRates env s)) envs initial_state.

(** What holds of the cache after the calls [envs]: the two variables are
    set together; the cached object was allocated earlier, and it is what
    the [try] block of one of these calls made of its response, at the time
    that call stored. *)
Definition cache_invariant (envs : list Env) (s : State) : Prop :=
  match cachedRates s, ratesCacheTime s with
  | None, None => True
  | Some r, Some t =>
      addr r < nextAddr s
      /\ exists env, env ∈ envs
                     /\ try_result (network env) = inr (fields r)
                     /\ t = later env
  | _, _ => False
  end.

(** [v.key] where the read is known not to throw. *)
Definition prop (v : Value) (key : string) : Value :=
  match get v key with
  | inr x => x
  | inl _ => VUndefined
  end.

(** The reads of the object literal that throw: [data.rates] on a null body,
    [.thirtyYear] and [.fifteenYear] on a null or missing [rates], [.rate] on
    a null or missing [thirtyYear] or [fifteenYear]. *)
Definition rate_reads_throw (data : Value) : bool :=
  nullish data
  || nullish (prop data "rates")
  || nullish (prop (prop data "rates") "thirtyYear")
  || nullish (prop (prop data "rates") "fifteenYear").

(** The snapshot the object literal builds when no read throws. *)
Definition snapshot_of (data : Value) : RateSnapshot :=
  {| thirtyYear := prop (prop (prop data "rates") "thirtyYear") "rate";
     fifteenYear := prop (prop (prop data "rates") "fifteenYear") "rate";
     source := prop data "source";
     lastUpdated := prop data "lastUpdated";
     isLive := negb (truthy (prop data "error")) |}.

Definition is_object_with (check : gmap string Value -> bool) (v : option Value) : bool :=
  match v with
  | Some (VObj props) => check props
  | _ => false
  end.

Definition is_number_field (v : option Value) : bool :=
  match v with
  | Some (VNum _) => true
  | _ => false
  end.

Definition is_string_field (v : option Value) : bool :=
  match v with
  | Some (VStr _) => true
  | _ => false
  end.

Definition is_optional_boolean_field (v : option Value) : bool :=
  match v with
  | None | Some (VBool _) => true
  | _ => false
  end.

(** The JSON shape section 6 of the specification expects of the body:
    [{ rates: { thirtyYear: { rate: number }, fifteenYear: { rate: number } },
       source: string, lastUpdated: string, error: boolean (optional) }]. *)
Definition expected_shape (data : Value) : bool :=
  is_object_with
    (fun body =>
       is_object_with
         (fun rates =>
            is_object_with (fun r => is_number_field (r !! "rate"))
              (rates !! "thirtyYear")
            && is_object_with (fun r => is_number_field (r !! "rate"))
                 (rates !! "fifteenYear"))
         (body !! "rates")
       && is_string_field (body !! "source")
       && is_string_field (body !! "lastUpdated")
       && is_optional_boolean_field (body !! "error"))
    (Some data).

(** The failures as the specification words them in its sections 6 and 7:
    the request did not complete (transport), the status is not 2xx
    (protocol), the body is not JSON or departs from the expected shape,
    by a missing field or a field of the wrong type (schema). *)
Definition spec_failure (n : FetchOutcome) : option ErrorKind :=
  match n with
  | Rejected _ => Some TransportError
  | Fulfilled response =>
      if ok response then
        match json_result response with
        | inl _ => Some SchemaError
        | inr data =>
            if expected_shape data then None else Some SchemaError
        end
      else Some ProtocolError
  end.

(** The claim that a failed fetch caches its fallback, at a given call and a
    following one. *)
Definition fallback_cached_claimed (env : Env) (s : State) (next : Env) : Prop :=
  let first := fetchMortgageRates env s in
  exists r,
    completion first = inr r
    /\ cachedRates (final first) = Some r
    /\ ratesCacheTime (final first) = Some (later env)
    /\ ((now next - later env < RATES_CACHE_DURATION)%Z ->
        completion (fetchMortgageRates next (final first)) = inr r
        /\ trace (fetchMortgageRates next (final first)) = []).

(** The claim that a successful fetch is served from the cache for the next
    hour, at a given first call and a following one. *)
Definition cache_hit_claimed (env1 env2 : Env) (s : State) : Prop :=
  let first := fetchMortgageRates env1 s in
  fresh_cached s (now env1) = None ->
  detected_failure (network env1) = None ->
  (now env2 - now env1 < RATES_CACHE_DURATION)%Z ->
  exists r,
    completion first = inr r
    /\ cachedRates (final first) = Some r
    /\ completion (fetchMortgageRates env2 (final first)) = inr r
    /\ trace (fetchMortgageRates env2 (final first)) = [].

(** The claimed invariant of a snapshot: not live exactly when its source is
    the fallback origin. *)
Definition live_iff_not_fallback_claimed (snapshot : RateSnapshot) : Prop :=
  isLive snapshot = false <-> source snapshot = VStr "Fallback (offline)".

(** The claim that a body deviating from the expected shape yields the
    fallback snapshot, at a given call. *)
Definition deviation_falls_back_claimed (env : Env) (s : State) (data : Value) : Prop :=
  expected_shape data = false ->
  exists r,
    completion (fetchMortgageRates env s) = inr r
    /\ fields r = fallback (later env).

(** *** Sample responses and calls *)

Definition rate_object (rate : Value) : Value :=
  VObj {[ "rate" := rate ]}.

Definition rates_body (thirty fifteen : Value) (rest : gmap string Value) : Value :=
  VObj (<[ "rates" := VObj {[ "thirtyYear" := thirty; "fifteenYear" := fifteen ]} ]> rest).

(** A well-formed body. *)
Definition live_body : Value :=
  rates_body (rate_object (VNum 6.85)) (rate_object (VNum 6.1))
    {[ "source" := VStr "Freddie Mac PMMS";
       "lastUpdated" := VStr "2024-05-02T16:00:00.000Z" ]}.

(** A well-formed body in which the endpoint reports its own degraded
    state. *)
Definition degraded_body : Value :=
  rates_body (rate_object (VNum 6.85)) (rate_object (VNum 6.1))
    {[ "source" := VStr "Freddie Mac PMMS";
       "lastUpdated" := VStr "2024-05-02T16:00:00.000Z";
       "error" := VBool true ]}.

(** A body with [rates.thirtyYear.rate] absent, a string for
    [rates.fifteenYear.rate], and no [source] or [lastUpdated]. *)
Definition malformed_body : Value :=
  rates_body (VObj ∅) (rate_object (VStr "5.9")) ∅.

(** A body complete but for the type of [rates.thirtyYear.rate], a string
    where a number is expected. *)
Definition mistyped_body : Value :=
  rates_body (rate_object (VStr "6.85")) (rate_object (VNum 6.1))
    {[ "source" := VStr "Freddie Mac PMMS";
       "lastUpdated" := VStr "2024-05-02T16:00:00.000Z" ]}.

(** A body whose [lastUpdated] is an object that no date can be made from. *)
Definition undatable_body : Value :=
  rates_body (rate_object (VNum 6.85)) (rate_object (VNum 6.1))
    {[ "source" := VStr "Freddie Mac PMMS";
       "lastUpdated" := VObj {[ "toString" := VNum 0 ]} ]}.

(** A body with no [rates] at all. *)
Definition empty_body : Value := VObj ∅.

Definition respond (code : Z) (data : Value) : FetchOutcome :=
  Fulfilled {| status := code; json_result := inr data |}.

Definition offline : FetchOutcome :=
  Rejected (NetworkError "Failed to fetch").

(** 2024-05-02T16:00:00Z, and instants shortly after it. *)
Definition t0 : Z := 1714665600000.

Definition call (start : Z) (n : FetchOutcome) (settled : Z) : Env :=
  {| now := start; network := n; later := settled |}.

End RatesSpec.

(* ===================================================================== *)
(** ** Parsing and validating user input (utils.js, lines 23-43, 118-123) *)
(* ===================================================================== *)

Module Inputs.
Import JS.
Import Stdlib.Strings.Ascii.

(** [s.replace(/[...]/g, '')]: every character of the class is removed.
    The classes used are ASCII, and a byte below 128 never occurs inside a
    multi-byte character. *)
Fixpoint remove_chars (class : list Ascii.ascii) (s : string) : string :=
  match s with
  | EmptyString => EmptyString
  | String c rest =>
      if bool_decide (c ∈ class) then remove_chars class rest
      else String c (remove_chars class rest)
  end.

(** [isNaN(x)] on a number. *)
Definition isNaN (x : float) : bool := negb (x =? x)%float.

(** [x || 0] on a number: zero when [x] is NaN or a zero of either sign. *)
Definition or_zero (x : float) : float :=
  if truthy (VNum x) then x else 0%float.

(** [Math.min] of two numbers: NaN when either is, the smaller otherwise,
    with [-0] below [+0]. *)
Definition Math_min (a b : float) : float :=
  if isNaN a || isNaN b then nan
  else if (b <? a)%float then b
  else if (b =? a)%float then
    match classify a with
    | NZero => a
    | _ => b
    end
  else a.

(** [Math.max] of two numbers: NaN when either is, the larger otherwise,
    with [+0] above [-0]. *)
Definition Math_max (a b : float) : float :=
  if isNaN a || isNaN b then nan
  else if (a <? b)%float then b
  else if (a =? b)%float then
    match classify a with
    | NZero => b
    | _ => a
    end
  else a.

(** Reading [value.replace] and calling it, for a value that is not a
    string: there is nothing to read on [undefined] and [null], and what the
    other values have under that name, if anything, is not a function. *)
Definition replace_failure (value : Value) : Exn :=
  if nullish value
  then TypeError "Cannot read properties of undefined or null (reading 'replace')"
  else TypeError "value.replace is not a function".

(** Converting a value to a primitive, as [parseFloat(v)] and [new Date(v)]
    start by doing, throws a TypeError for an object with an own property
    [toString]: the own properties of the objects modelled are data, none is
    a function, so the property hides the inherited method and nothing is
    left to call that gives a primitive (the inherited [valueOf] gives the
    object itself, an own [valueOf] is no function either). It throws as
    well for an array with such an element, which [join] meets. Every other
    value converts: text, numbers, booleans, [null], [undefined], and
    objects and arrays without such a property. *)
Fixpoint conversion_throws (v : Value) : bool :=
  match v with
  | VObj props => bool_decide (is_Some (props !! "toString"))
  | VArr items => existsb conversion_throws items
  | _ => false
  end.

Definition conversion_failure : Exn :=
  TypeError "Cannot convert object to primitive value".

Section Host.

(** [parseFloat] applied to a value that converts to a string, conversion
    included: the host's function is a parameter of the model. *)
Variable parseFloat : Value -> float.

(** [parseCurrency(value)]. *)
Definition parseCurrency (value : Value) : Exn + float :=
  match value with
  | VNum x => inr x
  | VStr s =>
      inr (or_zero (parseFloat (VStr (remove_chars ["$"; ","]%char s))))
  | _ => inl (replace_failure value)
  end.

(** [parsePercent(value)]: [parseFloat(...) / 100 || 0] divides first. *)
Definition parsePercent (value : Value) : Exn + float :=
  match value with
  | VNum x => inr (x / 100)%float
  | VStr s =>
      inr (or_zero (parseFloat (VStr (remove_chars ["%"]%char s)) / 100)%float)
  | _ => inl (replace_failure value)
  end.

(** [validateNumericInput(value, min = 0, max = Infinity)], for bounds that
    are numbers: an omitted ([None]) bound takes its default. *)
Definition validateNumericInput (value : Value) (min max : option float) : Exn + float :=
  let min := default 0%float min in
  let max := default infinity max in
  if conversion_throws value then inl conversion_failure
  else
    let num := parseFloat value in
    inr (if isNaN num then min else Math_max min (Math_min max num)).

End Host.

(** A host function for examples: it reads the two strings given and
    nothing else. *)
Definition sample_parseFloat (v : Value) : float :=
  match v with
  | VStr "1234.50" => 1234.5%float
  | VStr "-7" => (-7)%float
  | VNum x => x
  | _ => nan
  end.

End Inputs.

(* ===================================================================== *)
(** ** Counties for dropdowns (utils.js, lines 101-110) *)
(* ===================================================================== *)

Module Counties.
Import JS CountyTax.

(** The properties of the literal [TEXAS_COUNTY_TAX_RATES] as
    [Object.entries] lists them: in source order, each key with the [name]
    and the [rate] of its object. *)
Definition COUNTY_ENTRIES : list (string * (string * float)) :=
  [ ("harris", ("Harris County (Houston)", 2.23%float));
    ("dallas", ("Dallas County", 2.18%float));
    ("tarrant", ("Tarrant County (Fort Worth)", 2.26%float));
    ("bexar", ("Bexar County (San Antonio)", 2.23%float));
    ("travis", ("Travis County (Austin)", 2.11%float));
    ("collin", ("Collin County", 2.17%float));
    ("denton", ("Denton County", 2.16%float));
    ("hidalgo", ("Hidalgo County", 2.15%float));
    ("fortbend", ("Fort Bend County", 2.48%float));
    ("williamson", ("Williamson County", 2.21%float));
    ("montgomery", ("Montgomery County", 2.27%float));
    ("elpaso", ("El Paso County", 2.53%float));
    ("cameron", ("Cameron County", 2.05%float));
    ("nueces", ("Nueces County (Corpus Christi)", 2.24%float));
    ("brazoria", ("Brazoria County", 2.35%float));
    ("bell", ("Bell County", 2.38%float));
    ("galveston", ("Galveston County", 2.32%float));
    ("lubbock", ("Lubbock County", 2.01%float));
    ("webb", ("Webb County (Laredo)", 2.38%float));
    ("jefferson", ("Jefferson County (Beaumont)", 2.28%float)) ].

(** An element of the array [getTexasCounties] returns. *)
Record CountyOption : Type := {
  value : string;
  name : string;
  rate : float
}.

(** The callback of [map]: [([key, data]) => ({ value: key, name: data.name,
    rate: data.rate })]. *)
Definition to_option (entry : string * (string * float)) : CountyOption :=
  {| value := entry.1; name := entry.2.1; rate := entry.2.2 |}.

Section Host.

(** [String.prototype.localeCompare] depends on the host's locale data: it
    is a parameter. Only the sign of its result matters. *)
Variable localeCompare : string -> string -> Z.

(** [Array.prototype.sort] with the comparator
    [(a, b) => a.name.localeCompare(b.name)]. The sort is stable and, for a
    comparator that is a consistent order, yields the elements in that
    order: insertion from the right does exactly that. Where the comparator
    is no such order the standard leaves the order of the result, not its
    elements, to the host. *)
Fixpoint insert_by_name (x : CountyOption) (l : list CountyOption) : list CountyOption :=
  match l with
  | [] => [x]
  | y :: rest =>
      if (localeCompare (name x) (name y) <=? 0)%Z then x :: y :: rest
      else y :: insert_by_name x rest
  end.

Definition sort_by_name (l : list CountyOption) : list CountyOption :=
  foldr insert_by_name [] l.

(** [getTexasCounties()]. *)
Definition getTexasCounties : list CountyOption :=
  sort_by_name (map to_option COUNTY_ENTRIES).

End Host.

(** A comparator for examples: the order of the bytes. *)
Definition bytewise (a b : string) : Z :=
  match String.compare a b with
  | Lt => (-1)%Z
  | Eq => 0%Z
  | Gt => 1%Z
  end.

End Counties.

(* ===================================================================== *)
(** ** Debouncing (utils.js, lines 64-75) *)
(* ===================================================================== *)

Module Debounce.

Section Debounced.

(** The arguments of a call, and the [wait] given to [debounce]. The
    debounced [func] is seen through its invocations only; it is assumed not
    to call the debounced function itself. *)
Variable A : Type.
Variable wait : Z.

(** A pending timer of the host: its handle, the time it is due, and the
    arguments its callback [later] closes over. *)
Record Timer : Type := {
  id : nat;
  deadline : Z;
  args : A
}.

(** The host's pending timers in the order they were set, the next handle,
    the closure variable [timeout] ([None] is [undefined]), and the
    invocations of [func] so far, each with its time. *)
Record DState : Type := {
  timers : list Timer;
  nextId : nat;
  timeout : option nat;
  invoked : list (Z * A)
}.

Definition initial : DState :=
  {| timers := []; nextId := 0; timeout := None; invoked := [] |}.

(** [setTimeout] takes a negative delay for zero. *)
Definition delay : Z := Z.max 0 wait.

(** [clearTimeout(handle)]: the timer with that handle, if any, is dropped;
    [undefined] names none. *)
Definition clearTimeout (handle : option nat) (ts : list Timer) : list Timer :=
  match handle with
  | None => ts
  | Some i => filter (fun t => id t <> i) ts
  end.

(** [executedFunction(...args)] called at time [now]:
    [clearTimeout(timeout); timeout = setTimeout(later, wait)]. *)
Definition executedFunction (now : Z) (a : A) (s : DState) : DState :=
  {| timers :=
       clearTimeout (timeout s) (timers s)
       ++ [{| id := nextId s; deadline := (now + delay)%Z; args := a |}];
     nextId := S (nextId s);
     timeout := Some (nextId s);
     invoked := invoked s |}.

(** The callback [later] of timer [t]: [clearTimeout(timeout);
    func(...args)]. *)
Definition later (t : Timer) (s : DState) : DState :=
  {| timers := clearTimeout (timeout s) (timers s);
     nextId := nextId s;
     timeout := timeout s;
     invoked := invoked s ++ [(deadline t, args t)] |}.

(** The host runs a timer: it leaves the pending ones, then its callback
    runs. *)
Definition fire (t : Timer) (s : DState) : DState :=
  later t
    {| timers := filter (fun u => id u <> id t) (timers s);
       nextId := nextId s;
       timeout := timeout s;
       invoked := invoked s |}.

(** The pending timer due first, the one set first among equals. *)
Fixpoint earliest (ts : list Timer) : option Timer :=
  match ts with
  | [] => None
  | t :: rest =>
      match earliest rest with
      | Some u => if (deadline u <? deadline t)%Z then Some u else Some t
      | None => Some t
      end
  end.

Definition next_due (now : Z) (ts : list Timer) : option Timer :=
  match earliest ts with
  | Some t => if (deadline t <=? now)%Z then Some t else None
  | None => None
  end.

(** The clock reaches [now]: the timers due by then run, each at its
    deadline, the earliest first. A timer that runs is gone and [later] sets
    none, so there are at most as many runs as timers pending. *)
Fixpoint run_timers (fuel : nat) (now : Z) (s : DState) : DState :=
  match fuel with
  | O => s
  | S fuel' =>
      match next_due now (timers s) with
      | Some t => run_timers fuel' now (fire t s)
      | None => s
      end
  end.

Definition advance (now : Z) (s : DState) : DState :=
  run_timers (length (timers s)) now s.

(** What happens to a debounced function: it is called, or the host is
    idle and runs the timers that are due. A call runs no timer: the host
    runs a timer between tasks only, so a timer that is due when a call is
    made has either been run before it, which an [Idle] event before the
    call stands for, or is still pending, and then the call clears it. *)
Inductive Event : Type :=
| Call (now : Z) (a : A)
| Idle (now : Z).

Definition step (s : DState) (e : Event) : DState :=
  match e with
  | Call now a => executedFunction now a s
  | Idle now => advance now s
  end.

Definition run_from (s : DState) (events : list Event) : DState :=
  fold_left step events s.

Definition run (events : list Event) : DState := run_from initial events.

Definition call_of (c : Z * A) : Event := Call c.1 c.2.

(** Calls each made before the timer of the one before it is due. *)
Definition in_a_burst (calls : list (Z * A)) : Prop :=
  forall i c c',
    calls !! i = Some c -> calls !! S i = Some c' -> (c'.1 < c.1 + delay)%Z.

(** A call at time [c.1.1] with arguments [c.1.2], and the host idle at
    time [c.2] before anything else happens. *)
Definition call_then_idle (c : Z * A * Z) : list Event :=
  [Call c.1.1 c.1.2; Idle c.2].

(** The time of an event, and event lists in the order of time. *)
Definition time_of (e : Event) : Z :=
  match e with
  | Call now _ => now
  | Idle now => now
  end.

Definition chronological (events : list Event) : Prop :=
  forall i j e e',
    i <= j -> events !! i = Some e -> events !! j = Some e' ->
    (time_of e <= time_of e')%Z.

(** The pending timers are none, or the one [timeout] names. *)
Definition one_pending (s : DState) : Prop :=
  timers s = []
  \/ exists t, timers s = [t] /\ timeout s = Some (id t).

End Debounced.

Arguments id {A} _.
Arguments deadline {A} _.
Arguments args {A} _.
Arguments timers {A} _.
Arguments nextId {A} _.
Arguments timeout {A} _.
Arguments invoked {A} _.
Arguments Call {A} _ _.
Arguments Idle {A} _.
Arguments initial {A}.
Arguments clearTimeout {A} _ _.
Arguments executedFunction {A} _ _ _ _.
Arguments later {A} _ _.
Arguments fire {A} _ _.
Arguments earliest {A} _.
Arguments next_due {A} _ _.
Arguments run_timers {A} _ _ _.
Arguments advance {A} _ _.
Arguments step {A} _ _ _.
Arguments run_from {A} _ _ _.
Arguments run {A} _ _.
Arguments call_of {A} _.
Arguments in_a_burst {A} _ _.
Arguments call_then_idle {A} _.
Arguments one_pending {A} _.
Arguments time_of {A} _.
Arguments chronological {A} _.

End Debounce.

(* ===================================================================== *)
(** ** Showing the rate in a form (utils.js, lines 204-231) *)
(* ===================================================================== *)

Module RateInput.
Import JS Rates.
Import Stdlib.Strings.Ascii.

(** What the function touches of an input element: its [value] and its
    [data-live-rate] attribute ([None] when it has none). *)
Record InputElement : Type := {
  value : string;
  data_live_rate : option string
}.

(** What the function touches of a status element. *)
Record StatusElement : Type := {
  innerHTML : string
}.

(** What a call leaves: the two elements ([None] is [null]), the state of
    the rates cache, and the effects observed. The whole body is inside
    [try], and the [catch] block only logs: the call always completes. *)
Record Result : Type := {
  input : option InputElement;
  status : option StatusElement;
  cache : State;
  effects : list Event
}.

Definition quote : string := String "034"%char "".

(** [<span class="rate-live">Live rate as of ${dateStr}</span>]. *)
Definition live_text (dateStr : string) : string :=
  "<span class=" +:+ quote +:+ "rate-live" +:+ quote +:+ ">Live rate as of "
  +:+ dateStr +:+ "</span>".

(** [<span class="rate-fallback">Estimated rate</span>]. *)
Definition estimated_text : string :=
  "<span class=" +:+ quote +:+ "rate-fallback" +:+ quote
  +:+ ">Estimated rate</span>".

(** [rates[rateType]] on a snapshot object: one of its five own properties,
    or what it inherits. *)
Definition read_snapshot (rates : RateSnapshot) (key : string) : Value :=
  if String.eqb key "thirtyYear" then thirtyYear rates
  else if String.eqb key "fifteenYear" then fifteenYear rates
  else if String.eqb key "source" then source rates
  else if String.eqb key "lastUpdated" then lastUpdated rates
  else if String.eqb key "isLive" then VBool (isLive rates)
  else inherited key.

Section Host.

(** [Number.prototype.toFixed], and [toLocaleDateString] of the date made
    from a value that converts to a primitive, depend on the host: they are
    parameters. The first does not throw for two digits. [new Date(v)]
    throws where the conversion of [v] does, see [Inputs.conversion_throws];
    a date that cannot be read is rendered as an invalid date. *)
Variable toFixed : float -> Z -> string.
Variable toLocaleDateString : Value -> string.

(** [rates.lastUpdated ? new Date(rates.lastUpdated).toLocaleDateString()
    : 'Unknown']. *)
Definition date_text (rates : RateSnapshot) : Exn + string :=
  if truthy (lastUpdated rates) then
    if Inputs.conversion_throws (lastUpdated rates)
    then inl Inputs.conversion_failure
    else inr (toLocaleDateString (lastUpdated rates))
  else inr "Unknown".

(** The second [if]: the status element, when there is one, is given its
    text, once the date has been rendered. *)
Definition show_status (rates : RateSnapshot) (statusElement : option StatusElement) : Exn + option StatusElement :=
  match statusElement with
  | Some _ =>
      match date_text rates with
      | inr dateStr =>
          inr (Some {| innerHTML :=
                         if isLive rates then live_text dateStr
                         else estimated_text |})
      | inl error => inl error
      end
  | None => inr None
  end.

(** [updateRateInput(inputElement, rateType = 'thirtyYear',
    statusElement = null)]. [rate.toFixed] is a function on a number only:
    on any other truthy value the call throws a TypeError before the input
    is assigned. Whatever is thrown, the [catch] block is all that runs
    after it, and what was assigned before stays. *)
Definition updateRateInput (env : Env) (inputElement : option InputElement) (rateType : option string) (statusElement : option StatusElement) (s : State) : Result :=
  let fetched := fetchMortgageRates env s in
  let caught (input' : option InputElement) (error : Exn) : Result :=
    {| input := input'; status := statusElement;
       cache := final fetched;
       effects := trace fetched
                  ++ [ConsoleError "Error updating rate input:" error] |} in
  let finish (input' : option InputElement) (rates : RateSnapshot) : Result :=
    match show_status rates statusElement with
    | inr status' =>
        {| input := input'; status := status';
           cache := final fetched; effects := trace fetched |}
    | inl error => caught input' error
    end in
  match completion fetched with
  | inl error => caught inputElement error
  | inr rates =>
      let rate := read_snapshot (fields rates) (default "thirtyYear" rateType) in
      match (if truthy rate then inputElement else None) with
      | Some _ =>
          match rate with
          | VNum x =>
              finish (Some {| value := toFixed x 2;
                              data_live_rate := Some "true" |})
                (fields rates)
          | _ =>
              caught inputElement
                (TypeError "rate.toFixed is not a function")
          end
      | None => finish inputElement (fields rates)
      end
  end.

End Host.

(** Host functions for examples: two digits for the numbers used, and the
    date left as it is written. *)
Definition sample_toFixed (x : float) (digits : Z) : string :=
  if (x =? 6.5)%float then "6.50"
  else if (x =? 5.9)%float then "5.90"
  else if (x =? 6.85)%float then "6.85"
  else "0.00".

Definition sample_toLocaleDateString (v : Value) : string :=
  match v with
  | VStr s => s
  | _ => "Invalid Date"
  end.

(** A form as the page has it before any rate is shown. *)
Definition empty_input : InputElement :=
  {| value := ""; data_live_rate := None |}.

Definition empty_status : StatusElement := {| innerHTML := "" |}.

End RateInput.

(* ===================================================================== *)
(** ** Counting requests *)
(* ===================================================================== *)

Module Requests.
Import Rates.

Definition is_request (e : Event) : bool :=
  match e with
  | Fetch _ => true
  | ConsoleError _ _ => false
  end.

(** The number of requests among the effects of a call. *)
Definition requests (effects : list Event) : nat :=
  length (List.filter is_request effects).

End Requests.

Import JS Amortization CountyTax Rates RatesSpec.

(* ===================================================================== *)
(** ** Properties of the amortization functions *)
(* ===================================================================== *)

Section AmortizationFacts.

Variable Math_pow : float -> float -> float.

Lemma zero_rate_is_straight_line (principal years : float) :
  calculateMonthlyPayment Math_pow principal 0 years
  = (principal / (years * 12))%float.
Proof. reflexivity. Qed.

(** C6, as amended: the payment is [principal / (termYears * 12)] when the
    monthly rate [r = annualRatePercent / 100 / 12] evaluates to zero, and
    the annuity formula otherwise; this is the function the specification
    words in its section 4.3, a zero annual rate is one case of a zero
    monthly rate, and the payment is the claimed one whenever the annual
    rate is zero exactly when the monthly rate is. *)
Theorem monthly_payment_branches_on_monthly_rate
  (principal annualRatePercent termYears : float) :
  let r := (annualRatePercent / 100 / 12)%float in
  let n := (termYears * 12)%float in
  ((r =? 0)%float = true ->
     calculateMonthlyPayment Math_pow principal annualRatePercent termYears
     = (principal / n)%float)
  /\ ((r =? 0)%float = false ->
     calculateMonthlyPayment Math_pow principal annualRatePercent termYears
     = (principal * (r * Math_pow (1 + r) n) / (Math_pow (1 + r) n - 1))%float)
  /\ calculateMonthlyPayment Math_pow principal annualRatePercent termYears
     = monthlyPayment_spec Math_pow principal annualRatePercent termYears
  /\ calculateMonthlyPayment Math_pow principal 0 termYears
     = (principal / n)%float
  /\ ((annualRatePercent =? 0)%float = (r =? 0)%float ->
      calculateMonthlyPayment Math_pow principal annualRatePercent termYears
      = monthlyPayment_claimed Math_pow principal annualRatePercent termYears).
Proof.
  intros r n.
  unfold calculateMonthlyPayment, monthlyPayment_spec, monthlyPayment_claimed.
  fold r. fold n. repeat split.
  - intros Hr. now rewrite Hr.
  - intros Hr. now rewrite Hr.
  - intros Hsame. now rewrite Hsame.
Qed.

(** C8, as amended: no input is validated and no error is ever signalled.
    With a zero rate the result is [principal / (termYears * 12)] for every
    principal and term, whatever their sign: a negative number for a
    negative principal, an infinity for a zero term, NaN for zero over
    zero. *)
Theorem monthly_payment_does_not_validate (principal termYears : float) :
  calculateMonthlyPayment Math_pow principal 0 termYears
  = (principal / (termYears * 12))%float
  /\ calculateMonthlyPayment Math_pow (-100000) 0 30 = (-100000 / 360)%float
  /\ calculateMonthlyPayment Math_pow 100000 0 0 = infinity
  /\ calculateMonthlyPayment Math_pow 100000 0 (-0) = neg_infinity
  /\ calculateMonthlyPayment Math_pow 0 0 0 = nan.
Proof. repeat split; reflexivity. Qed.

End AmortizationFacts.

(** At the smallest positive rate the claimed formula and the code part
    ways whatever [Math.pow(1, 360)] returns, as soon as it returns what
    every host returns, [1]. *)
Lemma underflowing_rate_with_exact_pow (Math_pow : float -> float -> float) :
  Math_pow 1%float 360%float = 1%float ->
  calculateMonthlyPayment Math_pow 200000 MIN_VALUE 30 = (200000 / 360)%float
  /\ monthlyPayment_claimed Math_pow 200000 MIN_VALUE 30 = nan.
Proof.
  intros Hpow. split; [reflexivity|].
  unfold monthlyPayment_claimed.
  change (MIN_VALUE / 100 / 12)%float with 0%float.
  change (1 + 0)%float with 1%float.
  change (30 * 12)%float with 360%float.
  change (MIN_VALUE =? 0)%float with false. cbv iota.
  rewrite Hpow. reflexivity.
Qed.

Lemma zero_times_any (x : float) : zero_or_nan (0 * x)%float.
Proof.
  unfold zero_or_nan. rewrite mul_spec.
  change (Prim2SF 0) with (S754_zero false).
  destruct (Prim2SF x); cbn; eauto.
Qed.

Lemma any_times_zero_or_nan (x z : float) :
  zero_or_nan z -> zero_or_nan (x * z)%float.
Proof.
  unfold zero_or_nan. rewrite mul_spec.
  intros [-> | [sign ->]]; destruct (Prim2SF x); cbn; eauto.
Qed.

Lemma zero_or_nan_over_any (z x : float) :
  zero_or_nan z -> zero_or_nan (z / x)%float.
Proof.
  unfold zero_or_nan. rewrite div_spec.
  intros [-> | [sign ->]]; destruct (Prim2SF x); cbn; eauto.
Qed.

(** Whatever [Math.pow] returns, at the smallest positive rate the claimed
    formula yields a zero or NaN, never the payment the code returns. *)
Lemma underflowing_rate_with_any_pow (Math_pow : float -> float -> float) :
  calculateMonthlyPayment Math_pow 200000 MIN_VALUE 30
  <> monthlyPayment_claimed Math_pow 200000 MIN_VALUE 30.
Proof.
  intros Heq.
  assert (Hz : zero_or_nan (monthlyPayment_claimed Math_pow 200000 MIN_VALUE 30)).
  { unfold monthlyPayment_claimed.
    change (MIN_VALUE / 100 / 12)%float with 0%float.
    change (MIN_VALUE =? 0)%float with false. cbv iota.
    apply zero_or_nan_over_any, any_times_zero_or_nan, zero_times_any. }
  rewrite <- Heq in Hz.
  change (calculateMonthlyPayment Math_pow 200000 MIN_VALUE 30)
    with (200000 / 360)%float in Hz.
  destruct Hz as [Hz | [sign Hz]]; vm_compute in Hz; discriminate.
Qed.

(** C6, counterexample: [calculateMonthlyPayment(200000, 5e-324, 30)]. The
    inputs meet the preconditions and the annual rate is not zero, yet
    [5e-324 / 100 / 12] underflows to zero: the code returns
    [200000 / 360], where the claimed formula is [200000 * (0 * 1) / (1 - 1)],
    which is NaN. *)
Lemma monthly_payment_underflowing_rate :
  precondition 200000 MIN_VALUE 30 = true
  /\ (MIN_VALUE =? 0)%float = false
  /\ ~ (forall Math_pow : float -> float -> float,
          calculateMonthlyPayment Math_pow 200000 MIN_VALUE 30
          = monthlyPayment_claimed Math_pow 200000 MIN_VALUE 30).
Proof.
  split; [reflexivity|]. split; [reflexivity|].
  intros H. specialize (H (fun _ _ => 1%float)).
  assert (E : ((200000 / 360) =? (200000 / 360))%float
              = ((200000 / 360) =? nan)%float).
  { destruct (underflowing_rate_with_exact_pow (fun _ _ => 1%float) eq_refl)
      as [Hc Hs].
    rewrite Hc, Hs in H. now rewrite <- H. }
  vm_compute in E. discriminate.
Qed.

(** C8, counterexample: [calculateMonthlyPayment(-100000, 0, 30)] violates
    the precondition on the principal and returns [-277.77...], a negative
    number, as an ordinary result. *)
Lemma monthly_payment_negative_principal :
  precondition (-100000) 0 30 = false
  /\ ~ (forall Math_pow : float -> float -> float,
          negative_or_not_finite
            (calculateMonthlyPayment Math_pow (-100000) 0 30) = false).
Proof.
  split; [reflexivity|].
  intros H. specialize (H (fun _ _ => 1%float)).
  vm_compute in H. discriminate.
Qed.

(** C9: [totalInterest(principal, monthlyPayment, termYears)] is
    [monthlyPayment * termYears * 12 - principal], for all numbers. *)
Theorem total_interest_formula (principal monthlyPayment termYears : float) :
  calculateTotalInterest principal monthlyPayment termYears
  = totalInterest_spec principal monthlyPayment termYears
  /\ calculateTotalInterest principal monthlyPayment termYears
     = (monthlyPayment * termYears * 12 - principal)%float.
Proof. split; reflexivity. Qed.

Example zero_rate_sample (Math_pow : float -> float -> float) :
  calculateMonthlyPayment Math_pow 100000 0 30 = (100000 / 360)%float
  /\ (100000 / 360)%float = 277.77777777777777%float.
Proof. split; reflexivity. Qed.

Example total_interest_sample :
  calculateTotalInterest 200000 1264.14 30 = 255090.40000000002%float.
Proof. reflexivity. Qed.

(* ===================================================================== *)
(** ** Properties of the county tax lookup *)
(* ===================================================================== *)

Lemma county_rate (name : string) (rate : float) :
  get (county name rate) "rate" = inr (VNum rate).
Proof.
  unfold county, get, lookup_property.
  rewrite lookup_insert_ne by discriminate.
  now rewrite lookup_singleton_eq.
Qed.

(** A key of the table yields the tabulated rate. *)
Lemma getCountyTaxRate_tabulated (key name : string) (rate : float) :
  TEXAS_COUNTY_TAX_RATES !! key = Some (county name rate) ->
  getCountyTaxRate key = VNum rate.
Proof.
  intros Hkey. unfold getCountyTaxRate. cbv zeta.
  replace (lookup_property TEXAS_COUNTY_TAX_RATES key) with (county name rate)
    by (unfold lookup_property; now rewrite Hkey).
  rewrite county_rate. reflexivity.
Qed.

(** A key that is neither in the table nor a member of [Object.prototype]
    yields the default. *)
Lemma getCountyTaxRate_default (key : string) :
  TEXAS_COUNTY_TAX_RATES !! key = None ->
  key ∉ Object_prototype ->
  getCountyTaxRate key = VNum 2.20.
Proof.
  intros Hkey Hproto. unfold getCountyTaxRate, lookup_property, inherited.
  rewrite Hkey. now rewrite bool_decide_eq_false_2.
Qed.

(** A member of [Object.prototype] is found through the prototype chain, is
    truthy, and has no [rate]. *)
Lemma getCountyTaxRate_inherited (key : string) :
  key ∈ Object_prototype ->
  getCountyTaxRate key = VUndefined.
Proof.
  unfold Object_prototype. intros Hin.
  repeat (apply elem_of_cons in Hin as [-> | Hin]; [vm_compute; reflexivity|]).
  now apply elem_of_nil in Hin.
Qed.

(** C10, at the failing input: [getCountyTaxRate("toString")]. The key is not
    in the table, yet the lookup finds [Object.prototype.toString], a
    function, and the result is its [rate] property, [undefined], neither the
    default nor a number. *)
Theorem getCountyTaxRate_toString :
  TEXAS_COUNTY_TAX_RATES !! "toString" = None
  /\ getCountyTaxRate "toString" = VUndefined
  /\ getCountyTaxRate "toString" <> VNum 2.20
  /\ is_number (getCountyTaxRate "toString") = false.
Proof.
  split; [vm_compute; reflexivity|].
  rewrite getCountyTaxRate_inherited
    by (unfold Object_prototype; rewrite !elem_of_cons; tauto).
  repeat split. discriminate.
Qed.

Example getCountyTaxRate_travis : getCountyTaxRate "travis" = VNum 2.11.
Proof. apply (getCountyTaxRate_tabulated _ "Travis County (Austin)"). vm_compute. reflexivity. Qed.

Example getCountyTaxRate_unknown : getCountyTaxRate "loving" = VNum 2.20.
Proof.
  apply getCountyTaxRate_default; [vm_compute; reflexivity|].
  unfold Object_prototype. rewrite !elem_of_cons, elem_of_nil.
  intros H. repeat (destruct H as [H|H]; [discriminate|]). exact H.
Qed.

(* ===================================================================== *)
(** ** Properties of the rates helper *)
(* ===================================================================== *)

Lemma no_inherited_field (key : string) :
  key ∈ ["rates"; "thirtyYear"; "fifteenYear"; "rate"; "source";
         "lastUpdated"; "error"] ->
  inherited key = VUndefined.
Proof.
  intros Hin.
  repeat (apply elem_of_cons in Hin as [-> | Hin]; [vm_compute; reflexivity|]).
  now apply elem_of_nil in Hin.
Qed.

(** A cache hit: the cached object, an untouched state, no effect. *)
Lemma fetch_when_fresh (env : Env) (s : State) (cached : Ref) :
  fresh_cached s (now env) = Some cached ->
  fetchMortgageRates env s
  = {| completion := inr cached; final := s; trace := [] |}.
Proof.
  intros Hfresh. unfold fetchMortgageRates.
  cbv beta iota delta [bind get_state]. rewrite Hfresh. reflexivity.
Qed.

(** A cache miss: the request is made, and the call ends as the [try] block
    does. *)
Lemma fetch_when_stale (env : Env) (s : State) :
  fresh_cached s (now env) = None ->
  fetchMortgageRates env s
  = match try_result (network env) with
    | inl e => fell_back env s e
    | inr snapshot => fetched env s snapshot
    end.
Proof.
  intros Hstale. unfold fetchMortgageRates.
  cbv beta iota delta [bind get_state]. rewrite Hstale.
  cbv beta iota delta [try_catch bind fetch emit ret throw lift new_object
                         set_cachedRates set_ratesCacheTime try_result and_then].
  destruct (network env) as [reason | response]; [reflexivity|].
  cbv beta iota.
  destruct (ok response); cbv beta iota delta [negb]; [|reflexivity].
  destruct (json_result response) as [e | data]; cbv beta iota; [reflexivity|].
  destruct (build_rates data) as [e | snapshot]; reflexivity.
Qed.

Lemma failure_throws (n : FetchOutcome) (k : ErrorKind) :
  detected_failure n = Some k -> exists e, try_result n = inl e.
Proof.
  unfold detected_failure, try_result, and_then.
  destruct n as [reason | response]; [eauto|].
  destruct (ok response); [|eauto].
  destruct (json_result response) as [e | data]; [eauto|].
  destruct (build_rates data) as [e | snapshot]; [eauto | discriminate].
Qed.

Lemma success_builds (n : FetchOutcome) :
  detected_failure n = None ->
  exists response data snapshot,
    n = Fulfilled response /\ ok response = true
    /\ json_result response = inr data
    /\ build_rates data = inr snapshot
    /\ try_result n = inr snapshot.
Proof.
  unfold detected_failure, try_result, and_then.
  destruct n as [reason | response]; [discriminate|].
  destruct (ok response) eqn:Hok; [|discriminate].
  destruct (json_result response) as [e | data] eqn:Hjson; [discriminate|].
  destruct (build_rates data) as [e | snapshot] eqn:Hbuild; [discriminate|].
  intros _. exists response, data, snapshot. repeat split; assumption.
Qed.

Lemma get_nullish (v : Value) (key : string) :
  nullish v = true -> exists e, get v key = inl e.
Proof. destruct v; try discriminate; intros _; unfold get; eauto. Qed.

Lemma get_not_nullish (v : Value) (key : string) :
  nullish v = false -> get v key = inr (prop v key).
Proof. destruct v; try discriminate; intros _; reflexivity. Qed.

(** The object literal throws exactly when one of the reads on the way to
    the two rates meets [undefined] or [null]; otherwise every field is
    whatever the body holds at its place. *)
Lemma build_rates_spec (data : Value) :
  (rate_reads_throw data = true -> exists e, build_rates data = inl e)
  /\ (rate_reads_throw data = false -> build_rates data = inr (snapshot_of data)).
Proof.
  unfold rate_reads_throw, build_rates, snapshot_of.
  destruct (nullish data) eqn:Hdata; cbn [orb].
  { split; [intros _ | discriminate].
    destruct (get_nullish _ "rates" Hdata) as [e He]. rewrite He. eauto. }
  rewrite !(get_not_nullish data) by assumption. cbn [and_then].
  destruct (nullish (prop data "rates")) eqn:Hrates; cbn [orb].
  { split; [intros _ | discriminate].
    destruct (get_nullish _ "thirtyYear" Hrates) as [e He]. rewrite He. eauto. }
  rewrite !(get_not_nullish (prop data "rates")) by assumption. cbn [and_then].
  destruct (nullish (prop (prop data "rates") "thirtyYear")) eqn:H30; cbn [orb].
  { split; [intros _ | discriminate].
    destruct (get_nullish _ "rate" H30) as [e He]. rewrite He. eauto. }
  rewrite (get_not_nullish _ "rate" H30). cbn [and_then].
  destruct (nullish (prop (prop data "rates") "fifteenYear")) eqn:H15.
  { split; [intros _ | discriminate].
    destruct (get_nullish _ "rate" H15) as [e He]. rewrite He. eauto. }
  rewrite (get_not_nullish _ "rate" H15). cbn [and_then].
  split; [discriminate | reflexivity].
Qed.

(** Allocating an object does not change what the cache test sees. *)
Lemma fresh_cached_after_allocation (s : State) (t : Z) :
  fresh_cached (after_allocation s) t = fresh_cached s t.
Proof. reflexivity. Qed.

(** A stale entry stays stale as the clock advances. *)
Lemma stale_stays_stale (s : State) (t t' : Z) :
  fresh_cached s t = None -> (t <= t')%Z -> fresh_cached s t' = None.
Proof.
  unfold fresh_cached.
  destruct (cachedRates s) as [cached|]; [|reflexivity].
  destruct (ratesCacheTime s) as [fetched|]; [|reflexivity].
  destruct (fetched =? 0)%Z; cbn [negb andb]; [reflexivity|].
  destruct (t - fetched <? RATES_CACHE_DURATION)%Z eqn:Ht; [discriminate|].
  intros _ Hle. apply Z.ltb_ge in Ht.
  replace (t' - fetched <? RATES_CACHE_DURATION)%Z with false; [reflexivity|].
  symmetry. apply Z.ltb_ge. lia.
Qed.

(** A cache miss begins with the request. *)
Lemma stale_call_fetches (env : Env) (s : State) :
  fresh_cached s (now env) = None ->
  exists rest, trace (fetchMortgageRates env s) = Fetch RATES_API_URL :: rest.
Proof.
  intros Hstale. rewrite (fetch_when_stale _ _ Hstale).
  destruct (try_result (network env)); unfold fell_back, fetched; eauto.
Qed.

(** C5: the call completes normally with a snapshot object, whatever the
    cache holds and however the request ends (rejected, answered with any
    status, with a body that is not JSON, with any JSON value). *)
Theorem fetch_never_throws (env : Env) (s : State) :
  exists r : Ref, completion (fetchMortgageRates env s) = inr r.
Proof.
  destruct (fresh_cached s (now env)) as [cached|] eqn:Hcache.
  - rewrite (fetch_when_fresh _ _ _ Hcache). eauto.
  - rewrite (fetch_when_stale _ _ Hcache).
    destruct (try_result (network env)); unfold fell_back, fetched; eauto.
Qed.

(** On a stale cache, a fetch that fails in a way the code detects returns
    the fixed fallback: rates 6.5 and 5.9, source ["Fallback (offline)"],
    [lastUpdated] the ISO rendering of the clock read when the fallback is
    built, [isLive] false. *)
Theorem failed_fetch_returns_fallback (env : Env) (s : State) (k : ErrorKind) :
  fresh_cached s (now env) = None ->
  detected_failure (network env) = Some k ->
  exists r : Ref,
    completion (fetchMortgageRates env s) = inr r
    /\ thirtyYear (fields r) = VNum 6.5
    /\ fifteenYear (fields r) = VNum 5.9
    /\ source (fields r) = VStr "Fallback (offline)"
    /\ lastUpdated (fields r) = VStr (toISOString (later env))
    /\ isLive (fields r) = false.
Proof.
  intros Hstale Hfail. rewrite (fetch_when_stale _ _ Hstale).
  destruct (failure_throws _ _ Hfail) as [e He]. rewrite He.
  exists {| addr := nextAddr s; fields := fallback (later env) |}.
  repeat split.
Qed.

Lemma failed_fetch_returns_fallback_offline :
  fresh_cached initial_state (now (call t0 offline (t0 + 30))) = None
  /\ detected_failure (network (call t0 offline (t0 + 30))) = Some TransportError
  /\ exists r : Ref,
       completion (fetchMortgageRates (call t0 offline (t0 + 30)) initial_state)
       = inr r
       /\ thirtyYear (fields r) = VNum 6.5
       /\ fifteenYear (fields r) = VNum 5.9
       /\ source (fields r) = VStr "Fallback (offline)"
       /\ lastUpdated (fields r)
          = VStr (toISOString (later (call t0 offline (t0 + 30))))
       /\ isLive (fields r) = false.
Proof.
  split; [reflexivity|]. split; [reflexivity|].
  apply (failed_fetch_returns_fallback _ _ TransportError); reflexivity.
Defined.

(** What the code detects is a failure in the specification's sense too,
    of the same kind. *)
Lemma detected_failures_are_failures (n : FetchOutcome) (k : ErrorKind) :
  detected_failure n = Some k -> spec_failure n = Some k.
Proof.
  unfold detected_failure, spec_failure.
  destruct n as [reason | response]; [trivial|].
  destruct (ok response); [|trivial].
  destruct (json_result response) as [e | data]; [trivial|].
  destruct (build_rates data) as [e | snapshot] eqn:Hbuild; [|discriminate].
  intros Hk. replace (expected_shape data) with false; [exact Hk|].
  symmetry. destruct (expected_shape data) eqn:Hshape; [|reflexivity].
  exfalso. unfold expected_shape, is_object_with in Hshape.
  destruct data as [| | | | | |body|]; try discriminate.
  destruct (body !! "rates") as [[| | | | | |rates|]|] eqn:Hrates;
    try discriminate.
  destruct (rates !! "thirtyYear") as [[| | | | | |thirty|]|] eqn:H30;
    try discriminate.
  destruct (rates !! "fifteenYear") as [[| | | | | |fifteen|]|] eqn:H15;
    try (rewrite andb_false_r in Hshape; discriminate).
  unfold build_rates, and_then, get, lookup_property in Hbuild.
  rewrite Hrates, H30, H15 in Hbuild. discriminate.
Qed.

(** C4, at the failing input: a 200 response whose body is complete but for
    [rates.thirtyYear.rate], the string ["6.85"] where a number is expected.
    By the specification this is a schema error, a failed fetch; the cache
    is stale; yet the snapshot returned is not the fallback: it carries the
    string as its thirty-year rate and the provider's source, and is marked
    live. The code detects a malformed body only where a read throws. *)
Theorem mistyped_rate_is_not_a_failure_to_the_code :
  fresh_cached initial_state
    (now (call t0 (respond 200 mistyped_body) (t0 + 180))) = None
  /\ spec_failure (network (call t0 (respond 200 mistyped_body) (t0 + 180)))
     = Some SchemaError
  /\ detected_failure (network (call t0 (respond 200 mistyped_body) (t0 + 180)))
     = None
  /\ exists r : Ref,
       completion
         (fetchMortgageRates (call t0 (respond 200 mistyped_body) (t0 + 180))
            initial_state) = inr r
       /\ thirtyYear (fields r) = VStr "6.85"
       /\ fifteenYear (fields r) = VNum 6.1
       /\ source (fields r) = VStr "Freddie Mac PMMS"
       /\ isLive (fields r) = true
       /\ fields r
          <> fallback (later (call t0 (respond 200 mistyped_body) (t0 + 180))).
Proof.
  split; [reflexivity|]. split; [vm_compute; reflexivity|].
  split; [vm_compute; reflexivity|].
  exists {| addr := 0; fields := snapshot_of mistyped_body |}.
  split; [vm_compute; reflexivity|].
  split; [vm_compute; reflexivity|].
  split; [vm_compute; reflexivity|].
  split; [vm_compute; reflexivity|].
  split; [vm_compute; reflexivity|].
  intros Heq. apply (f_equal isLive) in Heq. vm_compute in Heq. discriminate.
Qed.

(** A 404, a body that is not JSON and a body without [rates] fall back
    too. *)
Example fallback_on_each_kind :
  detected_failure (respond 404 live_body) = Some ProtocolError
  /\ detected_failure (Fulfilled {| status := 200;
                               json_result := inl (SyntaxError "Unexpected token <") |})
     = Some SchemaError
  /\ detected_failure (respond 200 empty_body) = Some SchemaError
  /\ detected_failure (respond 200 VNull) = Some SchemaError
  /\ detected_failure (respond 200 live_body) = None.
Proof. repeat split; vm_compute; reflexivity. Qed.

(** After a fetch at [now1] that succeeded and populated the cache, a call
    at any [now2] with [now2 - now1 < TTL] returns the very object that was
    cached, leaves the state alone and makes no request, whenever the clock
    read at the cache write is not zero; the clock is read twice in the
    first call, and is taken not to run backwards between the two. *)
Theorem fresh_cache_is_served (env1 env2 : Env) (s : State) :
  fresh_cached s (now env1) = None ->
  detected_failure (network env1) = None ->
  later env1 <> 0%Z ->
  (now env1 <= later env1)%Z ->
  (now env2 - now env1 < RATES_CACHE_DURATION)%Z ->
  exists r : Ref,
    completion (fetchMortgageRates env1 s) = inr r
    /\ cachedRates (final (fetchMortgageRates env1 s)) = Some r
    /\ fetchMortgageRates env2 (final (fetchMortgageRates env1 s))
       = {| completion := inr r;
            final := final (fetchMortgageRates env1 s);
            trace := [] |}.
Proof.
  intros Hstale Hsuccess Hclock Hmono Hwithin.
  rewrite (fetch_when_stale _ _ Hstale).
  destruct (success_builds _ Hsuccess)
    as (response & data & snapshot & _ & _ & _ & _ & Htry).
  rewrite Htry. exists {| addr := nextAddr s; fields := snapshot |}.
  split; [reflexivity|]. split; [reflexivity|].
  apply fetch_when_fresh. unfold fresh_cached, fetched.
  cbn [final cachedRates ratesCacheTime].
  apply Z.eqb_neq in Hclock. rewrite Hclock. cbn [negb andb].
  replace (now env2 - later env1 <? RATES_CACHE_DURATION)%Z with true;
    [reflexivity|].
  symmetry. apply Z.ltb_lt. lia.
Qed.

Lemma fresh_cache_is_served_a_minute_later :
  fresh_cached initial_state (now (call t0 (respond 200 live_body) (t0 + 180)))
  = None
  /\ detected_failure (network (call t0 (respond 200 live_body) (t0 + 180))) = None
  /\ later (call t0 (respond 200 live_body) (t0 + 180)) <> 0%Z
  /\ (now (call t0 (respond 200 live_body) (t0 + 180))
      <= later (call t0 (respond 200 live_body) (t0 + 180)))%Z
  /\ (now (call (t0 + 60000) offline (t0 + 60030))
      - now (call t0 (respond 200 live_body) (t0 + 180))
      < RATES_CACHE_DURATION)%Z
  /\ exists r : Ref,
       completion
         (fetchMortgageRates (call t0 (respond 200 live_body) (t0 + 180))
            initial_state) = inr r
       /\ cachedRates
            (final
               (fetchMortgageRates (call t0 (respond 200 live_body) (t0 + 180))
                  initial_state)) = Some r
       /\ fetchMortgageRates (call (t0 + 60000) offline (t0 + 60030))
            (final
               (fetchMortgageRates (call t0 (respond 200 live_body) (t0 + 180))
                  initial_state))
          = {| completion := inr r;
               final :=
                 final
                   (fetchMortgageRates
                      (call t0 (respond 200 live_body) (t0 + 180))
                      initial_state);
               trace := [] |}.
Proof.
  assert (Hstale : fresh_cached initial_state
                     (now (call t0 (respond 200 live_body) (t0 + 180))) = None)
    by reflexivity.
  assert (Hsuccess : detected_failure
                       (network (call t0 (respond 200 live_body) (t0 + 180)))
                     = None)
    by (vm_compute; reflexivity).
  assert (Hclock : later (call t0 (respond 200 live_body) (t0 + 180)) <> 0%Z)
    by (vm_compute; discriminate).
  assert (Hmono : (now (call t0 (respond 200 live_body) (t0 + 180))
                   <= later (call t0 (respond 200 live_body) (t0 + 180)))%Z)
    by (vm_compute; discriminate).
  assert (Hwithin : (now (call (t0 + 60000) offline (t0 + 60030))
                     - now (call t0 (respond 200 live_body) (t0 + 180))
                     < RATES_CACHE_DURATION)%Z)
    by (vm_compute; reflexivity).
  split; [exact Hstale|]. split; [exact Hsuccess|]. split; [exact Hclock|].
  split; [exact Hmono|]. split; [exact Hwithin|].
  exact (fresh_cache_is_served _ _ _ Hstale Hsuccess Hclock Hmono Hwithin).
Defined.


(** C1, as amended: on a stale cache, a fetch that fails returns the
    fallback without writing it into the cache. [cachedRates] and
    [ratesCacheTime] keep what they held, and the next call, at any time not
    before this one, makes the request again. *)
Theorem failed_fetch_leaves_cache_untouched
  (env next : Env) (s : State) (k : ErrorKind) :
  fresh_cached s (now env) = None ->
  detected_failure (network env) = Some k ->
  (now env <= now next)%Z ->
  cachedRates (final (fetchMortgageRates env s)) = cachedRates s
  /\ ratesCacheTime (final (fetchMortgageRates env s)) = ratesCacheTime s
  /\ exists rest,
       trace (fetchMortgageRates next (final (fetchMortgageRates env s)))
       = Fetch RATES_API_URL :: rest.
Proof.
  intros Hstale Hfail Hlater.
  rewrite (fetch_when_stale _ _ Hstale).
  destruct (failure_throws _ _ Hfail) as [e He]. rewrite He.
  split; [reflexivity|]. split; [reflexivity|].
  apply stale_call_fetches. unfold fell_back. cbn [final].
  rewrite fresh_cached_after_allocation.
  exact (stale_stays_stale _ _ _ Hstale Hlater).
Qed.

Lemma failed_fetch_leaves_cache_untouched_offline :
  fresh_cached initial_state (now (call t0 offline (t0 + 30))) = None
  /\ detected_failure (network (call t0 offline (t0 + 30))) = Some TransportError
  /\ (now (call t0 offline (t0 + 30))
      <= now (call (t0 + 60000) (respond 200 live_body) (t0 + 60180)))%Z
  /\ cachedRates
       (final (fetchMortgageRates (call t0 offline (t0 + 30)) initial_state))
     = cachedRates initial_state
  /\ ratesCacheTime
       (final (fetchMortgageRates (call t0 offline (t0 + 30)) initial_state))
     = ratesCacheTime initial_state
  /\ exists rest,
       trace
         (fetchMortgageRates
            (call (t0 + 60000) (respond 200 live_body) (t0 + 60180))
            (final
               (fetchMortgageRates (call t0 offline (t0 + 30)) initial_state)))
       = Fetch RATES_API_URL :: rest.
Proof.
  assert (Hstale : fresh_cached initial_state (now (call t0 offline (t0 + 30)))
                   = None) by reflexivity.
  assert (Hfail : detected_failure (network (call t0 offline (t0 + 30)))
                  = Some TransportError) by reflexivity.
  assert (Hlater : (now (call t0 offline (t0 + 30))
                    <= now (call (t0 + 60000) (respond 200 live_body)
                              (t0 + 60180)))%Z)
    by (vm_compute; discriminate).
  split; [exact Hstale|]. split; [exact Hfail|]. split; [exact Hlater|].
  exact (failed_fetch_leaves_cache_untouched _ _ _ _ Hstale Hfail Hlater).
Defined.

(** C1, counterexample: the first call ever, at 2024-05-02T16:00:00Z, with
    the network down, and a second call one minute later. The cache was
    stale, the fetch failed, the second call is within the hour; yet after
    the first call [cachedRates] is still [null], and the second call makes
    the request again. *)
Lemma fallback_is_not_cached :
  fresh_cached initial_state (now (call t0 offline (t0 + 30))) = None
  /\ detected_failure (network (call t0 offline (t0 + 30))) = Some TransportError
  /\ (now (call (t0 + 60000) offline (t0 + 60030))
      - later (call t0 offline (t0 + 30)) < RATES_CACHE_DURATION)%Z
  /\ cachedRates
       (final (fetchMortgageRates (call t0 offline (t0 + 30)) initial_state))
     = None
  /\ trace
       (fetchMortgageRates (call (t0 + 60000) offline (t0 + 60030))
          (final (fetchMortgageRates (call t0 offline (t0 + 30)) initial_state)))
     = [Fetch RATES_API_URL;
        ConsoleError "Failed to fetch mortgage rates:"
          (NetworkError "Failed to fetch")]
  /\ ~ fallback_cached_claimed (call t0 offline (t0 + 30)) initial_state
         (call (t0 + 60000) offline (t0 + 60030)).
Proof.
  split; [reflexivity|]. split; [reflexivity|].
  split; [vm_compute; reflexivity|].
  split; [vm_compute; reflexivity|].
  split; [vm_compute; reflexivity|].
  intros (r & _ & Hcached & _). vm_compute in Hcached. discriminate.
Qed.

(** When the object literal is built, it is [snapshot_of] the body. *)
Lemma build_rates_success (data : Value) (snapshot : RateSnapshot) :
  build_rates data = inr snapshot ->
  rate_reads_throw data = false /\ snapshot = snapshot_of data.
Proof.
  intros Hbuild. destruct (build_rates_spec data) as [Hthrow Hok].
  destruct (rate_reads_throw data).
  - destruct (Hthrow eq_refl) as [e He]. congruence.
  - split; [reflexivity|]. rewrite (Hok eq_refl) in Hbuild. congruence.
Qed.

(** The cache invariant holds initially and every call keeps it. *)
Lemma run_calls_snoc (envs : list Env) (env : Env) :
  run_calls (envs ++ [env])
  = final (fetchMortgageRates env (run_calls envs)).
Proof. unfold run_calls. now rewrite fold_left_app. Qed.

Lemma cache_invariant_step (envs : list Env) (env : Env) (s : State) :
  cache_invariant envs s ->
  cache_invariant (envs ++ [env]) (final (fetchMortgageRates env s)).
Proof.
  intros Hinv.
  destruct (fresh_cached s (now env)) as [cached|] eqn:Hcache.
  - rewrite (fetch_when_fresh _ _ _ Hcache). cbn [final].
    unfold cache_invariant in *.
    destruct (cachedRates s), (ratesCacheTime s); try assumption.
    destruct Hinv as [Haddr (env' & Hin & Htry & Htime)].
    split; [assumption|]. exists env'. rewrite elem_of_app. auto.
  - rewrite (fetch_when_stale _ _ Hcache).
    destruct (try_result (network env)) as [e | snapshot] eqn:Htry.
    + unfold cache_invariant, fell_back, after_allocation in *.
      cbn [final cachedRates ratesCacheTime nextAddr].
      destruct (cachedRates s), (ratesCacheTime s); try assumption.
      destruct Hinv as [Haddr (env' & Hin & Htry' & Htime)].
      split; [lia|]. exists env'. rewrite elem_of_app. auto.
    + unfold cache_invariant, fetched.
      cbn [final cachedRates ratesCacheTime nextAddr addr fields].
      split; [lia|]. exists env. rewrite elem_of_app, list_elem_of_singleton.
      auto.
Qed.

Lemma run_calls_cache_invariant (envs : list Env) :
  cache_invariant envs (run_calls envs).
Proof.
  induction envs as [| env envs IH] using rev_ind.
  - exact I.
  - rewrite run_calls_snoc. exact (cache_invariant_step envs env _ IH).
Qed.

(** X17: after any sequence of calls made since the page loaded, the cached
    object, when there is one, is what the [try] block of one of these
    calls made of its response, stored with the time of that call. And the
    next call hands out one of two objects: when its own [try] block
    fails, a new object holding the fallback of that moment, which is not
    put in the cache and leaves the cache as it was; otherwise the object
    the cache holds afterwards, made by this call or by an earlier one from
    its response. So the fallback object is never cached. *)
Theorem cache_holds_only_responses (envs : list Env) :
  (forall r : Ref,
     cachedRates (run_calls envs) = Some r ->
     exists env, env ∈ envs
                 /\ try_result (network env) = inr (fields r)
                 /\ ratesCacheTime (run_calls envs) = Some (later env))
  /\ forall env : Env,
       exists r : Ref,
         completion (fetchMortgageRates env (run_calls envs)) = inr r
         /\ (((exists e, try_result (network env) = inl e)
              /\ fields r = fallback (later env)
              /\ cachedRates (final (fetchMortgageRates env (run_calls envs)))
                 = cachedRates (run_calls envs)
              /\ cachedRates (final (fetchMortgageRates env (run_calls envs)))
                 <> Some r)
             \/ (cachedRates (final (fetchMortgageRates env (run_calls envs)))
                 = Some r
                 /\ exists env', env' ∈ envs ++ [env]
                                 /\ try_result (network env')
                                    = inr (fields r))).
Proof.
  pose proof (run_calls_cache_invariant envs) as Hinv.
  set (s := run_calls envs) in *. split.
  - intros r Hr. unfold cache_invariant in Hinv. rewrite Hr in Hinv.
    destruct (ratesCacheTime s) as [t|]; [|contradiction].
    destruct Hinv as [_ (env & Hin & Htry & ->)]. eauto.
  - intros env.
    destruct (fresh_cached s (now env)) as [cached|] eqn:Hcache.
    + rewrite (fetch_when_fresh _ _ _ Hcache). exists cached.
      split; [reflexivity|]. right. cbn [final].
      unfold fresh_cached, cache_invariant in *.
      destruct (cachedRates s) as [r|]; [|discriminate].
      destruct (ratesCacheTime s) as [t|]; [|discriminate].
      destruct (negb (t =? 0)%Z && (now env - t <? RATES_CACHE_DURATION)%Z);
        [|discriminate].
      injection Hcache as <-. split; [reflexivity|].
      destruct Hinv as [_ (env' & Hin & Htry & _)].
      exists env'. rewrite elem_of_app. auto.
    + rewrite (fetch_when_stale _ _ Hcache).
      destruct (try_result (network env)) as [e | snapshot] eqn:Htry.
      * exists {| addr := nextAddr s; fields := fallback (later env) |}.
        split; [reflexivity|]. left. split; [eauto|].
        split; [reflexivity|]. split; [reflexivity|].
        unfold fell_back, after_allocation, cache_invariant in *.
        cbn [final cachedRates].
        destruct (cachedRates s) as [r|]; [|discriminate].
        destruct (ratesCacheTime s); [|contradiction].
        destruct Hinv as [Haddr _]. intros Heq. injection Heq as ->.
        cbn [addr] in Haddr. lia.
      * exists {| addr := nextAddr s; fields := snapshot |}.
        split; [reflexivity|]. right. split; [reflexivity|].
        exists env. rewrite elem_of_app, list_elem_of_singleton.
        cbn [fields]. auto.
Qed.

(** C2, as amended: on a cache miss, the snapshot synthesized after a failed
    fetch has [isLive = false] and the source ["Fallback (offline)"]; the
    snapshot built from a response takes its source from the body and has
    [isLive = false] exactly when the body's [error] is truthy, whatever
    that source is. *)
Theorem snapshot_liveness_by_origin (env : Env) (s : State) :
  fresh_cached s (now env) = None ->
  exists r : Ref,
    completion (fetchMortgageRates env s) = inr r
    /\ (forall k, detected_failure (network env) = Some k ->
          isLive (fields r) = false
          /\ source (fields r) = VStr "Fallback (offline)")
    /\ (detected_failure (network env) = None ->
          exists response data,
            network env = Fulfilled response
            /\ json_result response = inr data
            /\ source (fields r) = prop data "source"
            /\ isLive (fields r) = negb (truthy (prop data "error"))).
Proof.
  intros Hstale. rewrite (fetch_when_stale _ _ Hstale).
  destruct (detected_failure (network env)) as [k|] eqn:Hkind.
  - destruct (failure_throws _ _ Hkind) as [e He]. rewrite He.
    exists {| addr := nextAddr s; fields := fallback (later env) |}.
    split; [reflexivity|]. split; [|discriminate].
    intros _ _. split; reflexivity.
  - destruct (success_builds _ Hkind)
      as (response & data & snapshot & Hnet & _ & Hjson & Hbuild & Htry).
    rewrite Htry. exists {| addr := nextAddr s; fields := snapshot |}.
    split; [reflexivity|]. split; [discriminate|].
    intros _. exists response, data.
    destruct (build_rates_success _ _ Hbuild) as [_ ->].
    repeat split; assumption.
Qed.

Lemma snapshot_liveness_by_origin_degraded :
  fresh_cached initial_state
    (now (call t0 (respond 200 degraded_body) (t0 + 180))) = None
  /\ exists r : Ref,
       completion
         (fetchMortgageRates (call t0 (respond 200 degraded_body) (t0 + 180))
            initial_state) = inr r
       /\ (forall k,
             detected_failure
               (network (call t0 (respond 200 degraded_body) (t0 + 180)))
             = Some k ->
             isLive (fields r) = false
             /\ source (fields r) = VStr "Fallback (offline)")
       /\ (detected_failure
             (network (call t0 (respond 200 degraded_body) (t0 + 180)))
           = None ->
           exists response data,
             network (call t0 (respond 200 degraded_body) (t0 + 180))
             = Fulfilled response
             /\ json_result response = inr data
             /\ source (fields r) = prop data "source"
             /\ isLive (fields r) = negb (truthy (prop data "error"))).
Proof.
  assert (Hstale : fresh_cached initial_state
                     (now (call t0 (respond 200 degraded_body) (t0 + 180)))
                   = None) by reflexivity.
  split; [exact Hstale|].
  exact (snapshot_liveness_by_origin _ _ Hstale).
Defined.

(** C2, counterexample: a 200 response whose body is well formed, names its
    source ["Freddie Mac PMMS"] and sets [error: true]. The snapshot
    returned has [isLive = false] and that source, not the fallback one. *)
Lemma degraded_response_is_not_live :
  exists r : Ref,
    completion
      (fetchMortgageRates (call t0 (respond 200 degraded_body) (t0 + 180))
         initial_state) = inr r
    /\ isLive (fields r) = false
    /\ source (fields r) = VStr "Freddie Mac PMMS"
    /\ ~ live_iff_not_fallback_claimed (fields r).
Proof.
  exists {| addr := 0; fields := snapshot_of degraded_body |}.
  split; [vm_compute; reflexivity|].
  split; [vm_compute; reflexivity|].
  split; [vm_compute; reflexivity|].
  unfold live_iff_not_fallback_claimed. intros [Himp _].
  assert (Hsrc : source (fields {| addr := 0; fields := snapshot_of degraded_body |})
                 = VStr "Fallback (offline)")
    by (apply Himp; vm_compute; reflexivity).
  vm_compute in Hsrc. discriminate.
Qed.

(** What the code does with the body of a 2xx response on a cache miss: it
    falls back when the body is not JSON or when one of the reads on the way
    to the two rates throws ([data], [data.rates], [data.rates.thirtyYear]
    or [data.rates.fifteenYear] is [null] or absent), and takes any other
    body as it is, the snapshot holding whatever stands at the place of
    each field. *)
Theorem body_deviation_outcome (env : Env) (s : State) (response : Response) :
  fresh_cached s (now env) = None ->
  network env = Fulfilled response ->
  ok response = true ->
  (forall e, json_result response = inl e ->
     fetchMortgageRates env s = fell_back env s e)
  /\ (forall data, json_result response = inr data ->
        rate_reads_throw data = true ->
        exists e, fetchMortgageRates env s = fell_back env s e)
  /\ (forall data, json_result response = inr data ->
        rate_reads_throw data = false ->
        fetchMortgageRates env s = fetched env s (snapshot_of data)).
Proof.
  intros Hstale Hnet Hok. rewrite (fetch_when_stale _ _ Hstale), Hnet.
  unfold try_result. rewrite Hok. unfold and_then.
  split; [|split].
  - intros e He. now rewrite He.
  - intros data Hdata Hthrow. rewrite Hdata.
    destruct (build_rates_spec data) as [Hbuild _].
    destruct (Hbuild Hthrow) as [e He]. rewrite He. eauto.
  - intros data Hdata Hthrow. rewrite Hdata.
    destruct (build_rates_spec data) as [_ Hbuild].
    now rewrite (Hbuild Hthrow).
Qed.

Lemma body_deviation_outcome_malformed :
  fresh_cached initial_state
    (now (call t0 (respond 200 malformed_body) (t0 + 180))) = None
  /\ network (call t0 (respond 200 malformed_body) (t0 + 180))
     = Fulfilled {| status := 200; json_result := inr malformed_body |}
  /\ ok {| status := 200; json_result := inr malformed_body |} = true
  /\ (forall e,
        json_result {| status := 200; json_result := inr malformed_body |}
        = inl e ->
        fetchMortgageRates (call t0 (respond 200 malformed_body) (t0 + 180))
          initial_state
        = fell_back (call t0 (respond 200 malformed_body) (t0 + 180))
            initial_state e)
  /\ (forall data,
        json_result {| status := 200; json_result := inr malformed_body |}
        = inr data ->
        rate_reads_throw data = true ->
        exists e,
          fetchMortgageRates (call t0 (respond 200 malformed_body) (t0 + 180))
            initial_state
          = fell_back (call t0 (respond 200 malformed_body) (t0 + 180))
              initial_state e)
  /\ (forall data,
        json_result {| status := 200; json_result := inr malformed_body |}
        = inr data ->
        rate_reads_throw data = false ->
        fetchMortgageRates (call t0 (respond 200 malformed_body) (t0 + 180))
          initial_state
        = fetched (call t0 (respond 200 malformed_body) (t0 + 180))
            initial_state (snapshot_of data)).
Proof.
  assert (Hstale : fresh_cached initial_state
                     (now (call t0 (respond 200 malformed_body) (t0 + 180)))
                   = None) by reflexivity.
  assert (Hnet : network (call t0 (respond 200 malformed_body) (t0 + 180))
                 = Fulfilled {| status := 200;
                                json_result := inr malformed_body |})
    by reflexivity.
  assert (Hok : ok {| status := 200; json_result := inr malformed_body |}
                = true) by reflexivity.
  split; [exact Hstale|]. split; [exact Hnet|]. split; [exact Hok|].
  exact (body_deviation_outcome _ _ _ Hstale Hnet Hok).
Defined.

(** C7, at the failing input: a 200 response whose body has an empty
    object for [rates.thirtyYear], the string ["5.9"] for
    [rates.fifteenYear.rate], and no [source] or [lastUpdated]. It departs
    from the expected shape, yet no read throws: instead of the fallback
    the call returns and caches a snapshot built from it, marked live, with
    [thirtyYear] undefined, where the function's own description promises
    numbers and where a body without [rates] does fall back. *)
Lemma malformed_body_is_served :
  expected_shape malformed_body = false
  /\ fetchMortgageRates (call t0 (respond 200 malformed_body) (t0 + 180))
       initial_state
     = fetched (call t0 (respond 200 malformed_body) (t0 + 180)) initial_state
         {| thirtyYear := VUndefined;
            fifteenYear := VStr "5.9";
            source := VUndefined;
            lastUpdated := VUndefined;
            isLive := true |}
  /\ ~ deviation_falls_back_claimed
         (call t0 (respond 200 malformed_body) (t0 + 180)) initial_state
         malformed_body.
Proof.
  assert (Hshape : expected_shape malformed_body = false)
    by (vm_compute; reflexivity).
  split; [exact Hshape|]. split; [vm_compute; reflexivity|].
  intros Hclaim. destruct (Hclaim Hshape) as (r & Hr & Hfields).
  vm_compute in Hr. injection Hr as <-.
  vm_compute in Hfields. discriminate.
Qed.

(** The snapshot a well-formed response yields. *)
Example live_response_is_cached :
  fetchMortgageRates (call t0 (respond 200 live_body) (t0 + 180)) initial_state
  = fetched (call t0 (respond 200 live_body) (t0 + 180)) initial_state
      {| thirtyYear := VNum 6.85;
         fifteenYear := VNum 6.1;
         source := VStr "Freddie Mac PMMS";
         lastUpdated := VStr "2024-05-02T16:00:00.000Z";
         isLive := true |}.
Proof. vm_compute. reflexivity. Qed.

Example toISOString_samples :
  toISOString 0 = "1970-01-01T00:00:00.000Z"
  /\ toISOString t0 = "2024-05-02T16:00:00.000Z"
  /\ toISOString 1700000000000 = "2023-11-14T22:13:20.000Z"
  /\ toISOString 951782400000 = "2000-02-29T00:00:00.000Z"
  /\ toISOString (-1) = "1969-12-31T23:59:59.999Z".
Proof. repeat split; vm_compute; reflexivity. Qed.

(* ===================================================================== *)
(** ** Properties of the input helpers *)
(* ===================================================================== *)

Section InputFacts.
Import Inputs.
Import Stdlib.Strings.Ascii.

Variable parseFloat : Value -> float.

Lemma remove_chars_app (class : list Ascii.ascii) (a b : string) :
  remove_chars class (a +:+ b)
  = remove_chars class a +:+ remove_chars class b.
Proof.
  induction a as [| c a IH]; [reflexivity|].
  change (String c a +:+ b) with (String c (a +:+ b)).
  cbn [remove_chars]. rewrite IH.
  destruct (bool_decide (c ∈ class)); reflexivity.
Qed.

(** Removing a character of the class anywhere in the text changes nothing
    of what is left after [replace]. *)
Lemma remove_chars_insert (class : list Ascii.ascii) (c : Ascii.ascii) (a b : string) :
  c ∈ class ->
  remove_chars class (a +:+ String c b) = remove_chars class (a +:+ b).
Proof.
  intros Hin. rewrite !remove_chars_app. cbn [remove_chars].
  now rewrite bool_decide_eq_true_2.
Qed.

(** [x || 0] is never NaN. *)
Lemma or_zero_not_nan (x : float) : isNaN (or_zero x) = false.
Proof.
  unfold or_zero, isNaN, truthy.
  destruct (x =? 0)%float; cbn [negb andb]; [reflexivity|].
  destruct (x =? x)%float eqn:Hx; cbn [negb]; [now rewrite Hx | reflexivity].
Qed.

(** X1: a dollar sign or a comma anywhere in the text leaves the parsed
    amount unchanged, and a text is always parsed to a number that is not
    NaN: zero stands in for what [parseFloat] cannot read. *)
Theorem parseCurrency_ignores_separators (a b : string) :
  parseCurrency parseFloat (VStr (a +:+ String "$"%char b))
  = parseCurrency parseFloat (VStr (a +:+ b))
  /\ parseCurrency parseFloat (VStr (a +:+ String ","%char b))
     = parseCurrency parseFloat (VStr (a +:+ b))
  /\ exists x, parseCurrency parseFloat (VStr (a +:+ b)) = inr x
               /\ isNaN x = false.
Proof.
  unfold parseCurrency.
  rewrite !remove_chars_insert by (rewrite !elem_of_cons; tauto).
  repeat split. eexists. split; [reflexivity | apply or_zero_not_nan].
Qed.

(** X2: a percent sign anywhere in the text leaves the parsed fraction
    unchanged, and a text is always parsed to a number that is not NaN. *)
Theorem parsePercent_ignores_percent_sign (a b : string) :
  parsePercent parseFloat (VStr (a +:+ String "%"%char b))
  = parsePercent parseFloat (VStr (a +:+ b))
  /\ exists x, parsePercent parseFloat (VStr (a +:+ b)) = inr x
               /\ isNaN x = false.
Proof.
  unfold parsePercent.
  rewrite !remove_chars_insert by (rewrite !elem_of_cons; tauto).
  split; [reflexivity|]. eexists. split; [reflexivity | apply or_zero_not_nan].
Qed.

Lemma ltb_leb (x y : float) : (x <? y)%float = true -> (x <=? y)%float = true.
Proof.
  rewrite FloatAxioms.ltb_spec, FloatAxioms.leb_spec. unfold SFltb, SFleb.
  destruct (SFcompare (Prim2SF x) (Prim2SF y)) as [[]|]; congruence.
Qed.

Lemma eqb_leb (x y : float) : (x =? y)%float = true -> (x <=? y)%float = true.
Proof.
  rewrite FloatAxioms.eqb_spec, FloatAxioms.leb_spec. unfold SFeqb, SFleb.
  destruct (SFcompare (Prim2SF x) (Prim2SF y)) as [[]|]; congruence.
Qed.

Lemma leb_refl (x : float) : isNaN x = false -> (x <=? x)%float = true.
Proof.
  unfold isNaN. intros Hx. apply eqb_leb.
  now destruct (x =? x)%float.
Qed.

(** Of two numbers [Math.min] picks one, at most the first. *)
Lemma Math_min_spec (a b : float) :
  isNaN a = false -> isNaN b = false ->
  (Math_min a b = a \/ Math_min a b = b)
  /\ (Math_min a b <=? a)%float = true.
Proof.
  intros Ha Hb. unfold Math_min. rewrite Ha, Hb. cbn [orb].
  destruct (b <? a)%float eqn:Hlt.
  { split; [now right | now apply ltb_leb]. }
  destruct (b =? a)%float eqn:Heq.
  - destruct (classify a);
      (split; [tauto | first [now apply leb_refl | now apply eqb_leb]]).
  - split; [now left | now apply leb_refl].
Qed.

(** Of two numbers [Math.max] picks one, at least the first. *)
Lemma Math_max_spec (a b : float) :
  isNaN a = false -> isNaN b = false ->
  (Math_max a b = a \/ Math_max a b = b)
  /\ (a <=? Math_max a b)%float = true.
Proof.
  intros Ha Hb. unfold Math_max. rewrite Ha, Hb. cbn [orb].
  destruct (a <? b)%float eqn:Hlt.
  { split; [now right | now apply ltb_leb]. }
  destruct (a =? b)%float eqn:Heq.
  - destruct (classify a);
      (split; [tauto | first [now apply leb_refl | now apply eqb_leb]]).
  - split; [now left | now apply leb_refl].
Qed.


Ltac order_cases :=
  repeat match goal with
  | |- context [Z.compare ?a ?b] => destruct (Z.compare_spec a b)
  | |- context [Pos.compare_cont Eq ?a ?b] =>
      change (Pos.compare_cont Eq a b) with (Pos.compare a b);
      destruct (Pos.compare_spec a b)
  end.

(** The comparison of numbers is an order: nothing is below what lies at
    or below something below it, nor equal to it. *)
Lemma SF_le_lt_not_below (x y z : spec_float) :
  SFleb x y = true -> SFltb y z = true ->
  SFltb z x = false /\ SFeqb z x = false.
Proof.
  unfold SFleb, SFltb, SFeqb, SFcompare.
  destruct x as [sx | sx | | sx mx ex], y as [sy | sy | | sy my ey],
    z as [sz | sz | | sz mz ez];
    try destruct sx; try destruct sy; try destruct sz;
    try (intros; discriminate); try (split; reflexivity).
  all: order_cases; cbn; intros; subst;
    try discriminate; try (split; reflexivity); try lia.
Qed.

Lemma le_lt_not_below (x y z : float) :
  (x <=? y)%float = true -> (y <? z)%float = true ->
  (z <? x)%float = false /\ (z =? x)%float = false.
Proof.
  rewrite FloatAxioms.leb_spec, !FloatAxioms.ltb_spec, FloatAxioms.eqb_spec.
  apply SF_le_lt_not_below.
Qed.


End InputFacts.



Example validateNumericInput_samples :
  Inputs.validateNumericInput Inputs.sample_parseFloat (VStr "1234.50")
    (Some 0%float) (Some 1000%float) = inr 1000%float
  /\ Inputs.validateNumericInput Inputs.sample_parseFloat (VStr "-7") None None
     = inr 0%float
  /\ Inputs.validateNumericInput Inputs.sample_parseFloat (VStr "abc")
       (Some 5%float) None = inr 5%float
  /\ Inputs.validateNumericInput Inputs.sample_parseFloat (VStr "1234.50")
       (Some 2000%float) (Some 1000%float) = inr 2000%float
  /\ Inputs.validateNumericInput Inputs.sample_parseFloat
       (VObj {[ "toString" := VNum 0 ]}) None None
     = inl Inputs.conversion_failure
  /\ Inputs.validateNumericInput Inputs.sample_parseFloat
       (VArr [VNum 1; VObj {[ "toString" := VNull ]}]) None None
     = inl Inputs.conversion_failure
  /\ Inputs.validateNumericInput Inputs.sample_parseFloat (VObj ∅) None None
     = inr 0%float.
Proof. repeat split; vm_compute; reflexivity. Qed.

(* ===================================================================== *)
(** ** Properties of the county list *)
(* ===================================================================== *)

Section CountyListFacts.
Import Counties.

Variable localeCompare : string -> string -> Z.

(** The entries listed are those of the table the lookup reads. *)
Lemma county_entries_are_the_table :
  TEXAS_COUNTY_TAX_RATES
  = list_to_map (map (fun e => (e.1, county e.2.1 e.2.2)) COUNTY_ENTRIES).
Proof. reflexivity. Qed.

Lemma insert_by_name_permutation (x : CountyOption) (l : list CountyOption) :
  insert_by_name localeCompare x l ≡ₚ x :: l.
Proof.
  induction l as [| y rest IH]; cbn [insert_by_name]; [reflexivity|].
  destruct (localeCompare (name x) (name y) <=? 0)%Z; [reflexivity|].
  rewrite IH. apply Permutation_swap.
Qed.

(** Sorting rearranges and nothing else, whatever the comparator. *)
Lemma sort_by_name_permutation (l : list CountyOption) :
  sort_by_name localeCompare l ≡ₚ l.
Proof.
  induction l as [| x l IH]; cbn [sort_by_name foldr]; [reflexivity|].
  rewrite insert_by_name_permutation. now f_equiv.
Qed.

(** X5: every element of the county list can be looked up: its [value] is
    a key for which [getCountyTaxRate] returns its [rate]. *)
Theorem getTexasCounties_values_resolve :
  Forall (fun o => getCountyTaxRate (value o) = VNum (rate o))
    (getTexasCounties localeCompare).
Proof.
  unfold getTexasCounties. rewrite sort_by_name_permutation.
  unfold COUNTY_ENTRIES. cbn [map to_option fst snd].
  repeat (constructor; [vm_compute; reflexivity|]). constructor.
Qed.

(** X6: the county list offers exactly the keys of the table, each once:
    twenty options, no key twice, and a key is offered if and only if the
    table has it. *)
Theorem getTexasCounties_lists_the_table :
  length (getTexasCounties localeCompare) = 20
  /\ NoDup (map value (getTexasCounties localeCompare))
  /\ forall key : string,
       key ∈ map value (getTexasCounties localeCompare)
       <-> is_Some (TEXAS_COUNTY_TAX_RATES !! key).
Proof.
  assert (Hperm : map value (getTexasCounties localeCompare)
                  ≡ₚ map fst COUNTY_ENTRIES).
  { unfold getTexasCounties. rewrite sort_by_name_permutation.
    now rewrite <- list_fmap_compose. }
  assert (Hnodup : NoDup (map fst COUNTY_ENTRIES))
    by (apply (bool_decide_unpack _); vm_compute; exact I).
  split; [|split].
  - rewrite <- (length_map value), Hperm. reflexivity.
  - now rewrite Hperm.
  - intros key. rewrite Hperm, county_entries_are_the_table.
    rewrite <- elem_of_dom, dom_list_to_map_L, elem_of_list_to_set.
    now rewrite <- list_fmap_compose.
Qed.

End CountyListFacts.

(* ===================================================================== *)
(** ** Properties of debouncing *)
(* ===================================================================== *)

Section DebounceFacts.
Import Debounce.

Variable A : Type.
Variable wait : Z.

Implicit Types (s : DState A) (t : Timer A) (e : Event A).

Lemma clearTimeout_nil (handle : option nat) :
  clearTimeout handle ([] : list (Timer A)) = [].
Proof. now destruct handle. Qed.

Lemma clearTimeout_own t : clearTimeout (Some (id t)) [t] = [].
Proof.
  unfold clearTimeout. rewrite filter_cons_False by (intros H; now apply H).
  reflexivity.
Qed.

Lemma advance_nothing_pending (now : Z) s :
  timers s = [] -> advance now s = s.
Proof. intros Hts. unfold advance. now rewrite Hts. Qed.

Lemma advance_not_due (now : Z) s t :
  timers s = [t] -> (now < deadline t)%Z -> advance now s = s.
Proof.
  intros Hts Hlate. unfold advance. rewrite Hts. cbn [length run_timers].
  unfold next_due. rewrite Hts. cbn [earliest].
  now replace (deadline t <=? now)%Z with false by (symmetry; apply Z.leb_gt; lia).
Qed.

Lemma advance_due (now : Z) s t :
  timers s = [t] -> (deadline t <= now)%Z ->
  advance now s
  = {| timers := []; nextId := nextId s; timeout := timeout s;
       invoked := invoked s ++ [(deadline t, args t)] |}.
Proof.
  intros Hts Hdue. unfold advance. rewrite Hts. cbn [length run_timers].
  unfold next_due. rewrite Hts. cbn [earliest].
  replace (deadline t <=? now)%Z with true by (symmetry; apply Z.leb_le; lia).
  unfold fire, later. cbn [timers nextId timeout invoked]. rewrite Hts.
  rewrite filter_cons_False by (intros H; now apply H).
  rewrite filter_nil, clearTimeout_nil. reflexivity.
Qed.

(** What [advance] does to a state with at most the timer [timeout]
    names. *)
Lemma advance_one_pending (now : Z) s :
  one_pending s ->
  (advance now s = s
   \/ exists t, timers s = [t] /\ (deadline t <= now)%Z
                /\ advance now s
                   = {| timers := []; nextId := nextId s; timeout := timeout s;
                        invoked := invoked s ++ [(deadline t, args t)] |})
  /\ one_pending (advance now s).
Proof.
  intros [Hnone | (t & Hts & Hto)].
  - rewrite (advance_nothing_pending _ _ Hnone). split; [now left | now left].
  - destruct (Z_le_gt_dec (deadline t) now) as [Hdue | Hlate].
    + rewrite (advance_due _ _ _ Hts Hdue). split; [|now left].
      right. exists t. auto.
    + rewrite (advance_not_due _ _ _ Hts) by lia.
      split; [now left | right; eauto].
Qed.

Lemma executedFunction_one_pending (now : Z) (a : A) s :
  one_pending s ->
  executedFunction wait now a s
  = {| timers := [{| id := nextId s; deadline := (now + delay wait)%Z;
                     args := a |}];
       nextId := S (nextId s);
       timeout := Some (nextId s);
       invoked := invoked s |}.
Proof.
  unfold executedFunction.
  intros [Hnone | (t & Hts & Hto)].
  - now rewrite Hnone, clearTimeout_nil.
  - now rewrite Hts, Hto, clearTimeout_own.
Qed.

Lemma step_one_pending s e :
  one_pending s -> one_pending (step wait s e).
Proof.
  intros Hs. destruct e as [now a | now]; cbn [step].
  - rewrite (executedFunction_one_pending _ _ _ Hs). right. eauto.
  - now destruct (advance_one_pending now s Hs).
Qed.

Lemma run_from_one_pending (events : list (Event A)) s :
  one_pending s -> one_pending (run_from wait s events).
Proof.
  revert s. induction events as [| e events IH]; intros s Hs; [assumption|].
  cbn [run_from fold_left]. apply IH, step_one_pending, Hs.
Qed.

(** X7: however a debounced function is called and however time passes, at
    most one timer is pending, the one [timeout] names: every call drops the
    timer of the call before it. *)
Theorem debounce_keeps_one_timer (events : list (Event A)) :
  timers (run wait events) = []
  \/ exists t, timers (run wait events) = [t]
               /\ timeout (run wait events) = Some (id t).
Proof. apply (run_from_one_pending events initial). now left. Qed.


Lemma run_snoc (events : list (Event A)) e :
  run wait (events ++ [e]) = step wait (run wait events) e.
Proof. unfold run, run_from. now rewrite fold_left_app. Qed.

(** The state calls leave when the host runs no timer meanwhile: nothing
    invoked, and one timer pending, for the last call. *)
Lemma calls_leave_one_timer (calls : list (Z * A)) (c : Z * A) :
  invoked (run wait (map call_of (calls ++ [c]))) = []
  /\ exists i,
       timers (run wait (map call_of (calls ++ [c])))
       = [{| id := i; deadline := (c.1 + delay wait)%Z; args := c.2 |}]
       /\ timeout (run wait (map call_of (calls ++ [c]))) = Some i.
Proof.
  revert c. induction calls as [| c0 calls IH] using rev_ind; intros c.
  - split; [reflexivity | exists 0; split; reflexivity].
  - rewrite map_app. cbn [map]. rewrite run_snoc.
    destruct (IH c0) as (Hinv & i & Hts & Hto).
    set (s0 := run wait (map call_of (calls ++ [c0]))) in *.
    assert (Hone : one_pending s0) by (right; eauto).
    unfold call_of. cbn [step].
    rewrite (executedFunction_one_pending _ _ _ Hone).
    cbn [invoked timers timeout].
    split; [assumption | eexists; split; reflexivity].
Qed.


Lemma run_from_app (events events' : list (Event A)) s :
  run_from wait s (events ++ events')
  = run_from wait (run_from wait s events) events'.
Proof. unfold run_from. apply fold_left_app. Qed.

(** A call whose timer the host gets to run is invoked, and leaves no timer
    behind. *)
Lemma rounds_from (rounds : list (Z * A * Z)) s :
  timers s = [] ->
  Forall (fun c => (c.1.1 + delay wait <= c.2)%Z) rounds ->
  invoked (run_from wait s (rounds ≫= call_then_idle))
  = invoked s ++ map (fun c => ((c.1.1 + delay wait)%Z, c.1.2)) rounds
  /\ timers (run_from wait s (rounds ≫= call_then_idle)) = [].
Proof.
  revert s. induction rounds as [| c rounds IH]; intros s Hnone Hdue.
  - cbn. now rewrite app_nil_r.
  - apply Forall_cons in Hdue as [Hc Hdue].
    change ((c :: rounds) ≫= call_then_idle)
      with (call_then_idle c ++ (rounds ≫= call_then_idle)).
    rewrite run_from_app.
    assert (Hround : run_from wait s (call_then_idle c)
                     = {| timers := []; nextId := S (nextId s);
                          timeout := Some (nextId s);
                          invoked := invoked s
                                     ++ [((c.1.1 + delay wait)%Z, c.1.2)] |}).
    { unfold call_then_idle, run_from. cbn [fold_left step].
      rewrite executedFunction_one_pending by now left.
      rewrite (advance_due c.2 _
                 {| id := nextId s; deadline := (c.1.1 + delay wait)%Z;
                    args := c.1.2 |});
        [reflexivity | reflexivity | cbn [deadline]; lia]. }
    rewrite Hround.
    match goal with
    | |- context [run_from wait ?s' _] =>
        destruct (IH s' eq_refl Hdue) as [Hinv Hts]
    end.
    split; [|exact Hts].
    rewrite Hinv. cbn [invoked map]. now rewrite <- app_assoc.
Qed.

(** X9: calls whose timers the host gets to run, each call followed by the
    host idle at or after the deadline of its timer and before the next
    call, lose nothing: [func] is invoked once per call, in order, each
    with the arguments of its call and stamped with the deadline of its
    timer. *)
Theorem calls_left_to_run_are_all_invoked (rounds : list (Z * A * Z)) :
  Forall (fun c => (c.1.1 + delay wait <= c.2)%Z) rounds ->
  invoked (run wait (rounds ≫= call_then_idle))
  = map (fun c => ((c.1.1 + delay wait)%Z, c.1.2)) rounds
  /\ timers (run wait (rounds ≫= call_then_idle)) = [].
Proof.
  intros Hdue. exact (rounds_from rounds initial eq_refl Hdue).
Qed.

(** Calls made without the host getting to run a timer between them, even
    at or after its deadline, invoke [func] for the last call only: a
    debounced function called twice in one task with a [wait] of zero
    invokes it once. *)
Lemma calls_in_one_task_invoke_once (calls : list (Z * A)) (c : Z * A) (finish : Z) :
  (c.1 + delay wait <= finish)%Z ->
  invoked (run wait (map call_of (calls ++ [c]) ++ [Idle finish]))
  = [((c.1 + delay wait)%Z, c.2)].
Proof.
  intros Hfinish.
  destruct (calls_leave_one_timer calls c) as (Hinv & i & Hts & Hto).
  rewrite run_snoc. cbn [step].
  rewrite (advance_due _ _ _ Hts) by (cbn [deadline]; lia).
  cbn [invoked deadline args]. now rewrite Hinv.
Qed.

Lemma chronological_front (events : list (Event A)) e :
  chronological (events ++ [e]) ->
  chronological events
  /\ forall e0, e0 ∈ events -> (time_of e0 <= time_of e)%Z.
Proof.
  intros Hchron. split.
  - intros i j x y Hij Hi Hj.
    apply (Hchron i j x y Hij); rewrite lookup_app_l;
      eauto using lookup_lt_Some.
  - intros e0 Hin. apply list_elem_of_lookup in Hin as [i Hi].
    apply (Hchron i (length events) e0 e).
    + apply lookup_lt_Some in Hi. lia.
    + rewrite lookup_app_l; eauto using lookup_lt_Some.
    + now apply list_lookup_middle.
Qed.

(** What holds after any events in the order of time: each invocation
    stems from a call made [delay] before it, no call fell strictly within
    that delay, and no invocation is ahead of the clock; the pending timer
    is that of the latest call. *)
Lemma silence_invariant (events : list (Event A)) :
  chronological events ->
  Forall (fun x =>
            (exists called, Call called x.2 ∈ events /\ x.1 = (called + delay wait)%Z)
            /\ (forall tc a, Call tc a ∈ events ->
                  (tc <= x.1 - delay wait)%Z \/ (x.1 <= tc)%Z)
            /\ exists e, e ∈ events /\ (x.1 <= time_of e)%Z)
    (invoked (run wait events))
  /\ Forall (fun t =>
               exists tl, Call tl (args t) ∈ events
                          /\ deadline t = (tl + delay wait)%Z
                          /\ forall tc a, Call tc a ∈ events -> (tc <= tl)%Z)
       (timers (run wait events)).
Proof.
  induction events as [| e events IH] using rev_ind; intros Hchron.
  { split; constructor. }
  destruct (chronological_front _ _ Hchron) as [Hfront Hbefore].
  destruct (IH Hfront) as [Hinv Hpend]. clear IH.
  rewrite run_snoc.
  pose proof (run_from_one_pending events initial (or_introl eq_refl)) as Hone.
  fold (run wait events) in Hone.
  set (s := run wait events) in *.
  (* the invocations and the timer carried over stay good *)
  assert (Hold : Forall (fun x =>
            (exists called, Call called x.2 ∈ events ++ [e]
                             /\ x.1 = (called + delay wait)%Z)
            /\ (forall tc a, Call tc a ∈ events ++ [e] ->
                  (tc <= x.1 - delay wait)%Z \/ (x.1 <= tc)%Z)
            /\ exists e', e' ∈ events ++ [e] /\ (x.1 <= time_of e')%Z)
          (invoked s)).
  { eapply Forall_impl; [exact Hinv|].
    intros x ((t & Hcall & Hx) & Hquiet & (e0 & He0 & Hclock)).
    split; [|split].
    - exists t. split; [|assumption]. apply elem_of_app. now left.
    - intros tc a Hin. apply elem_of_app in Hin as [Hin | Hin].
      + eauto.
      + apply list_elem_of_singleton in Hin. subst e. right.
        specialize (Hbefore e0 He0). cbn [time_of] in Hbefore. lia.
    - exists e0. split; [|assumption]. apply elem_of_app. now left. }
  (* the invocation of a timer that is due is good as well *)
  assert (Hfired : forall t, timers s = [t] -> (deadline t <= time_of e)%Z ->
            (exists tl, Call tl (args t) ∈ events ++ [e]
                        /\ deadline t = (tl + delay wait)%Z)
            /\ (forall tc a, Call tc a ∈ events ++ [e] ->
                  (tc <= deadline t - delay wait)%Z \/ (deadline t <= tc)%Z)
            /\ exists e', e' ∈ events ++ [e] /\ (deadline t <= time_of e')%Z).
  { intros t Hts Hdue. rewrite Hts in Hpend.
    apply Forall_cons in Hpend as [(tl & Hcall & Hdl & Hlast) _].
    split; [|split].
    - exists tl. split; [|assumption]. apply elem_of_app. now left.
    - intros tc a Hin. apply elem_of_app in Hin as [Hin | Hin].
      + left. specialize (Hlast tc a Hin). lia.
      + apply list_elem_of_singleton in Hin. subst e. right. exact Hdue.
    - exists e. split; [|assumption]. apply elem_of_app. right.
      now apply list_elem_of_singleton. }
  (* the clock reaches the time of the event *)
  assert (Hadv : Forall (fun x =>
            (exists called, Call called x.2 ∈ events ++ [e]
                             /\ x.1 = (called + delay wait)%Z)
            /\ (forall tc a, Call tc a ∈ events ++ [e] ->
                  (tc <= x.1 - delay wait)%Z \/ (x.1 <= tc)%Z)
            /\ exists e', e' ∈ events ++ [e] /\ (x.1 <= time_of e')%Z)
          (invoked (advance (time_of e) s))
        /\ one_pending (advance (time_of e) s)
        /\ (timers (advance (time_of e) s) = []
            \/ timers (advance (time_of e) s) = timers s)).
  { destruct (advance_one_pending (time_of e) s Hone)
      as [[Hsame | (t & Hts & Hdue & Hrun)] Hone'].
    - rewrite Hsame. auto.
    - split; [|split; [assumption | left; now rewrite Hrun]].
      rewrite Hrun. cbn [invoked]. apply Forall_app. split; [assumption|].
      constructor; [|constructor]. cbn [fst snd]. now apply Hfired. }
  destruct Hadv as (Hinv' & Hone' & Hts').
  destruct e as [now a | now]; cbn [step time_of] in *.
  - rewrite (executedFunction_one_pending _ _ _ Hone).
    cbn [invoked timers]. split; [assumption|].
    constructor; [|constructor]. cbn [args deadline].
    exists now. split; [|split; [reflexivity|]].
    + apply elem_of_app. right. now apply list_elem_of_singleton.
    + intros tc b Hin. apply elem_of_app in Hin as [Hin | Hin].
      * specialize (Hbefore _ Hin). cbn [time_of] in Hbefore. lia.
      * apply list_elem_of_singleton in Hin. injection Hin as -> _. lia.
  - split; [assumption|].
    destruct Hts' as [Hnone | Hkept]; [rewrite Hnone; constructor|].
    rewrite Hkept. eapply Forall_impl; [exact Hpend|].
    intros t (tl & Hcall & Hdl & Hlast). exists tl.
    split; [apply elem_of_app; now left | split; [assumption|]].
    intros tc b Hin. apply elem_of_app in Hin as [Hin | Hin]; [eauto|].
    apply list_elem_of_singleton in Hin. discriminate.
Qed.

(** X10: with events in the order of time, [func] is only ever invoked for
    a call made exactly [delay] earlier, with that call's arguments, and
    only after silence: no call fell strictly between that call and the
    invocation. *)
Theorem invocation_follows_silence (events : list (Event A)) :
  chronological events ->
  Forall (fun x =>
            (exists called, Call called x.2 ∈ events /\ x.1 = (called + delay wait)%Z)
            /\ (forall tc a, Call tc a ∈ events ->
                  (tc <= x.1 - delay wait)%Z \/ (x.1 <= tc)%Z))
    (invoked (run wait events)).
Proof.
  intros Hchron. destruct (silence_invariant events Hchron) as [Hinv _].
  eapply Forall_impl; [exact Hinv|]. intros x (Hcall & Hquiet & _). auto.
Qed.

End DebounceFacts.


(** Three calls half a second apart, debounced by 300 milliseconds, the
    host idle 350 milliseconds after each. *)
Lemma calls_left_to_run_are_all_invoked_sample :
  Forall (fun c => (c.1.1 + Debounce.delay 300 <= c.2)%Z)
    [(0%Z, "a", 350%Z); (500%Z, "b", 850%Z); (1000%Z, "c", 1350%Z)]
  /\ Debounce.invoked
       (Debounce.run 300
          ([(0%Z, "a", 350%Z); (500%Z, "b", 850%Z); (1000%Z, "c", 1350%Z)]
           ≫= Debounce.call_then_idle))
     = map (fun c => ((c.1.1 + Debounce.delay 300)%Z, c.1.2))
         [(0%Z, "a", 350%Z); (500%Z, "b", 850%Z); (1000%Z, "c", 1350%Z)]
  /\ Debounce.timers
       (Debounce.run 300
          ([(0%Z, "a", 350%Z); (500%Z, "b", 850%Z); (1000%Z, "c", 1350%Z)]
           ≫= Debounce.call_then_idle)) = [].
Proof.
  assert (Hdue : Forall (fun c => (c.1.1 + Debounce.delay 300 <= c.2)%Z)
                   [(0%Z, "a", 350%Z); (500%Z, "b", 850%Z);
                    (1000%Z, "c", 1350%Z)])
    by (repeat constructor; vm_compute; discriminate).
  split; [exact Hdue|].
  exact (calls_left_to_run_are_all_invoked string 300 _ Hdue).
Defined.

(** Two calls in a burst, a pause, and a third call. *)
Lemma invocation_follows_silence_sample :
  Debounce.chronological
    [Debounce.Call 0 "t"; Debounce.Call 100 "te"; Debounce.Idle 450;
     Debounce.Call 500 "tex"]
  /\ Forall (fun x =>
               (exists called,
                   Debounce.Call called x.2
                   ∈ [Debounce.Call 0 "t"; Debounce.Call 100 "te";
                      Debounce.Idle 450; Debounce.Call 500 "tex"]
                   /\ x.1 = (called + Debounce.delay 300)%Z)
               /\ (forall tc a,
                     Debounce.Call tc a
                     ∈ [Debounce.Call 0 "t"; Debounce.Call 100 "te";
                        Debounce.Idle 450; Debounce.Call 500 "tex"] ->
                     (tc <= x.1 - Debounce.delay 300)%Z \/ (x.1 <= tc)%Z))
       (Debounce.invoked
          (Debounce.run 300
             [Debounce.Call 0 "t"; Debounce.Call 100 "te"; Debounce.Idle 450;
              Debounce.Call 500 "tex"])).
Proof.
  assert (Hchron : Debounce.chronological
                     [Debounce.Call 0 "t"; Debounce.Call 100 "te";
                      Debounce.Idle 450; Debounce.Call 500 "tex"]).
  { intros i j e e' Hij Hi Hj.
    destruct i as [|[|[|[|i]]]]; destruct j as [|[|[|[|j]]]];
      vm_compute in Hi, Hj; try discriminate; try lia;
      injection Hi as <-; injection Hj as <-; vm_compute; discriminate. }
  split; [exact Hchron|].
  exact (invocation_follows_silence string 300 _ Hchron).
Defined.

Example debounce_in_one_task :
  Debounce.invoked
    (Debounce.run 0
       [Debounce.Call 0 "a"; Debounce.Call 0 "b"; Debounce.Idle 0])
  = [(0%Z, "b")].
Proof. vm_compute. reflexivity. Qed.

Example debounce_sample :
  Debounce.invoked
    (Debounce.run 300
       [Debounce.Call 0 "t"; Debounce.Call 100 "te"; Debounce.Idle 450;
        Debounce.Call 500 "tex"; Debounce.Idle 800])
  = [(400%Z, "te"); (800%Z, "tex")].
Proof. vm_compute. reflexivity. Qed.

(* ===================================================================== *)
(** ** Properties of the rate shown in a form *)
(* ===================================================================== *)

Section RateInputFacts.
Import RateInput.

Variable toFixed : float -> Z -> string.
Variable toLocaleDateString : Value -> string.

Lemma live_text_is_not_estimated (dateStr : string) :
  live_text dateStr <> estimated_text.
Proof.
  unfold live_text, estimated_text, quote.
  cbv [String.append]. discriminate.
Qed.

(** X11: with the network down and nothing fresh in the cache, the form
    still gets a rate: the input is set to the fallback rate with two
    digits (6.5 by default, 5.9 for the fifteen-year rate) and marked, and
    the status reads "Estimated rate". *)
Theorem offline_form_shows_estimated_rate
  (env : Env) (s : State) (k : ErrorKind)
  (element : InputElement) (statusElement : StatusElement) :
  fresh_cached s (now env) = None ->
  detected_failure (network env) = Some k ->
  input (updateRateInput toFixed toLocaleDateString env (Some element) None
           (Some statusElement) s)
  = Some {| value := toFixed 6.5 2; data_live_rate := Some "true" |}
  /\ status (updateRateInput toFixed toLocaleDateString env (Some element) None
               (Some statusElement) s)
     = Some {| innerHTML := estimated_text |}
  /\ input (updateRateInput toFixed toLocaleDateString env (Some element)
              (Some "fifteenYear") (Some statusElement) s)
     = Some {| value := toFixed 5.9 2; data_live_rate := Some "true" |}
  /\ status (updateRateInput toFixed toLocaleDateString env (Some element)
               (Some "fifteenYear") (Some statusElement) s)
     = Some {| innerHTML := estimated_text |}.
Proof.
  intros Hstale Hfail. unfold updateRateInput.
  rewrite (fetch_when_stale _ _ Hstale).
  destruct (failure_throws _ _ Hfail) as [e He]. rewrite He.
  assert (Hshow : show_status toLocaleDateString (fallback (later env))
                    (Some statusElement)
                  = inr (Some {| innerHTML := estimated_text |})).
  { unfold show_status, date_text. cbn [fallback lastUpdated isLive].
    destruct (truthy (VStr (toISOString (later env)))); reflexivity. }
  repeat split; cbn -[show_status fallback]; rewrite Hshow; reflexivity.
Qed.

(** X12: the input is only ever given a number: after a call it is as it
    was, or it holds the two-digit rendering of the snapshot's rate of the
    type asked for, which then is a number other than zero and NaN. *)
Theorem input_is_only_given_a_number
  (env : Env) (s : State) (inputElement : option InputElement)
  (rateType : option string) (statusElement : option StatusElement) :
  input (updateRateInput toFixed toLocaleDateString env inputElement rateType
           statusElement s) = inputElement
  \/ exists (x : float) (rates : Ref),
       input (updateRateInput toFixed toLocaleDateString env inputElement
                rateType statusElement s)
       = Some {| value := toFixed x 2; data_live_rate := Some "true" |}
       /\ completion (fetchMortgageRates env s) = inr rates
       /\ read_snapshot (fields rates) (default "thirtyYear" rateType) = VNum x
       /\ truthy (VNum x) = true.
Proof.
  unfold updateRateInput.
  destruct (completion (fetchMortgageRates env s)) as [e | rates];
    [now left|].
  destruct (truthy (read_snapshot (fields rates) (default "thirtyYear" rateType)))
    eqn:Htruthy;
    [|left; destruct (show_status toLocaleDateString (fields rates) statusElement);
      reflexivity].
  destruct inputElement as [element|];
    [|left; destruct (show_status toLocaleDateString (fields rates) statusElement);
      reflexivity].
  destruct (read_snapshot (fields rates) (default "thirtyYear" rateType))
    as [| | | x | | | |] eqn:Hrate; try (now left).
  right. exists x, rates.
  split; [|auto].
  destruct (show_status toLocaleDateString (fields rates) statusElement);
    reflexivity.
Qed.

(** X13: a rate that is truthy and not a number stops the update where it
    stands: the input keeps its value, the status element is not touched,
    and the error is logged. *)
Theorem non_numeric_rate_aborts_the_update
  (env : Env) (s : State) (rates : Ref) (element : InputElement)
  (rateType : option string) (statusElement : option StatusElement) :
  completion (fetchMortgageRates env s) = inr rates ->
  truthy (read_snapshot (fields rates) (default "thirtyYear" rateType)) = true ->
  is_number (read_snapshot (fields rates) (default "thirtyYear" rateType))
  = false ->
  updateRateInput toFixed toLocaleDateString env (Some element) rateType
    statusElement s
  = {| input := Some element;
       status := statusElement;
       cache := final (fetchMortgageRates env s);
       effects := trace (fetchMortgageRates env s)
                  ++ [ConsoleError "Error updating rate input:"
                        (TypeError "rate.toFixed is not a function")] |}.
Proof.
  intros Hrates Htruthy Hnumber. unfold updateRateInput.
  rewrite Hrates, Htruthy.
  destruct (read_snapshot (fields rates) (default "thirtyYear" rateType));
    try reflexivity; discriminate.
Qed.

(** X14: with a status element, and nothing thrown before the status is
    reached: when the date of the snapshot can be rendered, the status reads
    "Estimated rate" exactly when the snapshot is not live; when rendering
    the date throws, the status element is left as it was and the error is
    logged. *)
Theorem status_tells_live_from_estimated
  (env : Env) (s : State) (rates : Ref) (inputElement : option InputElement)
  (rateType : option string) (statusElement : StatusElement) :
  completion (fetchMortgageRates env s) = inr rates ->
  (inputElement = None
   \/ truthy (read_snapshot (fields rates) (default "thirtyYear" rateType))
      = false
   \/ is_number (read_snapshot (fields rates) (default "thirtyYear" rateType))
      = true) ->
  (truthy (lastUpdated (fields rates))
   && Inputs.conversion_throws (lastUpdated (fields rates)) = false ->
   exists text,
     status (updateRateInput toFixed toLocaleDateString env inputElement
               rateType (Some statusElement) s)
     = Some {| innerHTML := text |}
     /\ (text = estimated_text <-> isLive (fields rates) = false))
  /\ (truthy (lastUpdated (fields rates))
      && Inputs.conversion_throws (lastUpdated (fields rates)) = true ->
      status (updateRateInput toFixed toLocaleDateString env inputElement
                rateType (Some statusElement) s)
      = Some statusElement
      /\ effects (updateRateInput toFixed toLocaleDateString env inputElement
                    rateType (Some statusElement) s)
         = trace (fetchMortgageRates env s)
           ++ [ConsoleError "Error updating rate input:"
                 Inputs.conversion_failure]).
Proof.
  intros Hrates Hruns. unfold updateRateInput. rewrite Hrates.
  assert (Hshow :
            (truthy (lastUpdated (fields rates))
             && Inputs.conversion_throws (lastUpdated (fields rates)) = false ->
             exists text,
               show_status toLocaleDateString (fields rates) (Some statusElement)
               = inr (Some {| innerHTML := text |})
               /\ (text = estimated_text <-> isLive (fields rates) = false))
            /\ (truthy (lastUpdated (fields rates))
                && Inputs.conversion_throws (lastUpdated (fields rates)) = true ->
                show_status toLocaleDateString (fields rates) (Some statusElement)
                = inl Inputs.conversion_failure)).
  { unfold show_status, date_text.
    destruct (truthy (lastUpdated (fields rates)));
      destruct (Inputs.conversion_throws (lastUpdated (fields rates)));
      cbn [andb]; (split; [intros Hconv | intros Hconv]); try discriminate;
      try reflexivity;
      (eexists; split; [reflexivity|]);
      (destruct (isLive (fields rates));
       [ split; [|discriminate]; intros H;
         now apply live_text_is_not_estimated in H
       | split; reflexivity ]). }
  destruct Hshow as [Hrendered Hthrown].
  assert (Hfinish : forall input',
            (truthy (lastUpdated (fields rates))
             && Inputs.conversion_throws (lastUpdated (fields rates)) = false ->
             exists text,
               status
                 match show_status toLocaleDateString (fields rates)
                         (Some statusElement) with
                 | inr status' =>
                     {| input := input'; status := status';
                        cache := final (fetchMortgageRates env s);
                        effects := trace (fetchMortgageRates env s) |}
                 | inl error =>
                     {| input := input'; status := Some statusElement;
                        cache := final (fetchMortgageRates env s);
                        effects := trace (fetchMortgageRates env s)
                                   ++ [ConsoleError "Error updating rate input:"
                                         error] |}
                 end
               = Some {| innerHTML := text |}
               /\ (text = estimated_text <-> isLive (fields rates) = false))
            /\ (truthy (lastUpdated (fields rates))
                && Inputs.conversion_throws (lastUpdated (fields rates)) = true ->
                status
                  match show_status toLocaleDateString (fields rates)
                          (Some statusElement) with
                  | inr status' =>
                      {| input := input'; status := status';
                         cache := final (fetchMortgageRates env s);
                         effects := trace (fetchMortgageRates env s) |}
                  | inl error =>
                      {| input := input'; status := Some statusElement;
                         cache := final (fetchMortgageRates env s);
                         effects := trace (fetchMortgageRates env s)
                                    ++ [ConsoleError "Error updating rate input:"
                                          error] |}
                  end
                = Some statusElement
                /\ effects
                     match show_status toLocaleDateString (fields rates)
                             (Some statusElement) with
                     | inr status' =>
                         {| input := input'; status := status';
                            cache := final (fetchMortgageRates env s);
                            effects := trace (fetchMortgageRates env s) |}
                     | inl error =>
                         {| input := input'; status := Some statusElement;
                            cache := final (fetchMortgageRates env s);
                            effects := trace (fetchMortgageRates env s)
                                       ++ [ConsoleError
                                             "Error updating rate input:"
                                             error] |}
                     end
                   = trace (fetchMortgageRates env s)
                     ++ [ConsoleError "Error updating rate input:"
                           Inputs.conversion_failure])).
  { intros input'. split; intros Hconv.
    - destruct (Hrendered Hconv) as [text [Hst Htext]]. rewrite Hst.
      exists text. split; [reflexivity | exact Htext].
    - rewrite (Hthrown Hconv). split; reflexivity. }
  destruct (truthy (read_snapshot (fields rates) (default "thirtyYear" rateType)))
    eqn:Htruthy; [|apply Hfinish].
  destruct inputElement as [element|]; [|apply Hfinish].
  destruct Hruns as [Hnone | [Hfalse | Hnumber]]; try discriminate.
  destruct (read_snapshot (fields rates) (default "thirtyYear" rateType));
    try discriminate. apply Hfinish.
Qed.

End RateInputFacts.

Lemma offline_form_shows_estimated_rate_first_visit :
  fresh_cached initial_state (now (call t0 offline (t0 + 30))) = None
  /\ detected_failure (network (call t0 offline (t0 + 30))) = Some TransportError
  /\ RateInput.input
       (RateInput.updateRateInput RateInput.sample_toFixed
          RateInput.sample_toLocaleDateString (call t0 offline (t0 + 30))
          (Some RateInput.empty_input) None (Some RateInput.empty_status)
          initial_state)
     = Some {| RateInput.value := RateInput.sample_toFixed 6.5 2;
               RateInput.data_live_rate := Some "true" |}
  /\ RateInput.status
       (RateInput.updateRateInput RateInput.sample_toFixed
          RateInput.sample_toLocaleDateString (call t0 offline (t0 + 30))
          (Some RateInput.empty_input) None (Some RateInput.empty_status)
          initial_state)
     = Some {| RateInput.innerHTML := RateInput.estimated_text |}
  /\ RateInput.input
       (RateInput.updateRateInput RateInput.sample_toFixed
          RateInput.sample_toLocaleDateString (call t0 offline (t0 + 30))
          (Some RateInput.empty_input) (Some "fifteenYear")
          (Some RateInput.empty_status) initial_state)
     = Some {| RateInput.value := RateInput.sample_toFixed 5.9 2;
               RateInput.data_live_rate := Some "true" |}
  /\ RateInput.status
       (RateInput.updateRateInput RateInput.sample_toFixed
          RateInput.sample_toLocaleDateString (call t0 offline (t0 + 30))
          (Some RateInput.empty_input) (Some "fifteenYear")
          (Some RateInput.empty_status) initial_state)
     = Some {| RateInput.innerHTML := RateInput.estimated_text |}.
Proof.
  assert (Hstale : fresh_cached initial_state (now (call t0 offline (t0 + 30)))
                   = None) by reflexivity.
  assert (Hfail : detected_failure (network (call t0 offline (t0 + 30)))
                  = Some TransportError) by reflexivity.
  split; [exact Hstale|]. split; [exact Hfail|].
  exact (offline_form_shows_estimated_rate RateInput.sample_toFixed
           RateInput.sample_toLocaleDateString _ _ _ RateInput.empty_input
           RateInput.empty_status Hstale Hfail).
Defined.

(** The malformed body of the rates section, shown for the fifteen-year
    rate: that rate is the string "5.9". *)
Lemma non_numeric_rate_aborts_the_update_malformed :
  completion
    (fetchMortgageRates (call t0 (respond 200 malformed_body) (t0 + 180))
       initial_state)
  = inr {| addr := 0; fields := snapshot_of malformed_body |}
  /\ truthy
       (RateInput.read_snapshot
          (fields {| addr := 0; fields := snapshot_of malformed_body |})
          (default "thirtyYear" (Some "fifteenYear"))) = true
  /\ is_number
       (RateInput.read_snapshot
          (fields {| addr := 0; fields := snapshot_of malformed_body |})
          (default "thirtyYear" (Some "fifteenYear"))) = false
  /\ RateInput.updateRateInput RateInput.sample_toFixed
       RateInput.sample_toLocaleDateString
       (call t0 (respond 200 malformed_body) (t0 + 180))
       (Some RateInput.empty_input) (Some "fifteenYear")
       (Some RateInput.empty_status) initial_state
     = {| RateInput.input := Some RateInput.empty_input;
          RateInput.status := Some RateInput.empty_status;
          RateInput.cache :=
            final
              (fetchMortgageRates
                 (call t0 (respond 200 malformed_body) (t0 + 180))
                 initial_state);
          RateInput.effects :=
            trace
              (fetchMortgageRates
                 (call t0 (respond 200 malformed_body) (t0 + 180))
                 initial_state)
            ++ [ConsoleError "Error updating rate input:"
                  (TypeError "rate.toFixed is not a function")] |}.
Proof.
  assert (Hrates : completion
                     (fetchMortgageRates
                        (call t0 (respond 200 malformed_body) (t0 + 180))
                        initial_state)
                   = inr {| addr := 0; fields := snapshot_of malformed_body |})
    by (vm_compute; reflexivity).
  assert (Htruthy : truthy
                      (RateInput.read_snapshot
                         (fields {| addr := 0;
                                    fields := snapshot_of malformed_body |})
                         (default "thirtyYear" (Some "fifteenYear"))) = true)
    by (vm_compute; reflexivity).
  assert (Hnumber : is_number
                      (RateInput.read_snapshot
                         (fields {| addr := 0;
                                    fields := snapshot_of malformed_body |})
                         (default "thirtyYear" (Some "fifteenYear"))) = false)
    by (vm_compute; reflexivity).
  split; [exact Hrates|]. split; [exact Htruthy|]. split; [exact Hnumber|].
  exact (non_numeric_rate_aborts_the_update RateInput.sample_toFixed
           RateInput.sample_toLocaleDateString _ _ _ RateInput.empty_input
           (Some "fifteenYear") (Some RateInput.empty_status)
           Hrates Htruthy Hnumber).
Defined.

Lemma status_tells_live_from_estimated_live :
  completion
    (fetchMortgageRates (call t0 (respond 200 live_body) (t0 + 180))
       initial_state)
  = inr {| addr := 0; fields := snapshot_of live_body |}
  /\ ((None : option RateInput.InputElement) = None
      \/ truthy
           (RateInput.read_snapshot
              (fields {| addr := 0; fields := snapshot_of live_body |})
              (default "thirtyYear" None)) = false
      \/ is_number
           (RateInput.read_snapshot
              (fields {| addr := 0; fields := snapshot_of live_body |})
              (default "thirtyYear" None)) = true)
  /\ truthy (lastUpdated (snapshot_of live_body))
     && Inputs.conversion_throws (lastUpdated (snapshot_of live_body)) = false
  /\ exists text,
       RateInput.status
         (RateInput.updateRateInput RateInput.sample_toFixed
            RateInput.sample_toLocaleDateString
            (call t0 (respond 200 live_body) (t0 + 180)) None None
            (Some RateInput.empty_status) initial_state)
       = Some {| RateInput.innerHTML := text |}
       /\ (text = RateInput.estimated_text
           <-> isLive (fields {| addr := 0; fields := snapshot_of live_body |})
               = false).
Proof.
  assert (Hrates : completion
                     (fetchMortgageRates
                        (call t0 (respond 200 live_body) (t0 + 180))
                        initial_state)
                   = inr {| addr := 0; fields := snapshot_of live_body |})
    by (vm_compute; reflexivity).
  assert (Hruns : (None : option RateInput.InputElement) = None
                  \/ truthy
                       (RateInput.read_snapshot
                          (fields {| addr := 0;
                                     fields := snapshot_of live_body |})
                          (default "thirtyYear" None)) = false
                  \/ is_number
                       (RateInput.read_snapshot
                          (fields {| addr := 0;
                                     fields := snapshot_of live_body |})
                          (default "thirtyYear" None)) = true)
    by (left; reflexivity).
  assert (Hdate : truthy (lastUpdated (snapshot_of live_body))
                  && Inputs.conversion_throws
                       (lastUpdated (snapshot_of live_body)) = false)
    by (vm_compute; reflexivity).
  split; [exact Hrates|]. split; [exact Hruns|]. split; [exact Hdate|].
  exact (proj1 (status_tells_live_from_estimated RateInput.sample_toFixed
                  RateInput.sample_toLocaleDateString _ _ _ None None
                  RateInput.empty_status Hrates Hruns) Hdate).
Defined.

(** A date that cannot be made: the input has its rate by then, the status
    element keeps its text, and the error is logged. *)
Example undatable_form_sample :
  RateInput.updateRateInput RateInput.sample_toFixed
    RateInput.sample_toLocaleDateString
    (call t0 (respond 200 undatable_body) (t0 + 180))
    (Some RateInput.empty_input) None (Some RateInput.empty_status)
    initial_state
  = {| RateInput.input :=
         Some {| RateInput.value := "6.85";
                 RateInput.data_live_rate := Some "true" |};
       RateInput.status := Some RateInput.empty_status;
       RateInput.cache :=
         final
           (fetchMortgageRates
              (call t0 (respond 200 undatable_body) (t0 + 180))
              initial_state);
       RateInput.effects :=
         [Fetch RATES_API_URL;
          ConsoleError "Error updating rate input:"
            Inputs.conversion_failure] |}.
Proof. vm_compute. reflexivity. Qed.

Example live_form_sample :
  RateInput.updateRateInput RateInput.sample_toFixed
    RateInput.sample_toLocaleDateString
    (call t0 (respond 200 live_body) (t0 + 180))
    (Some RateInput.empty_input) None (Some RateInput.empty_status)
    initial_state
  = {| RateInput.input :=
         Some {| RateInput.value := "6.85";
                 RateInput.data_live_rate := Some "true" |};
       RateInput.status :=
         Some {| RateInput.innerHTML :=
                   RateInput.live_text "2024-05-02T16:00:00.000Z" |};
       RateInput.cache :=
         final
           (fetchMortgageRates (call t0 (respond 200 live_body) (t0 + 180))
              initial_state);
       RateInput.effects := [Fetch RATES_API_URL] |}.
Proof. vm_compute. reflexivity. Qed.

(* ===================================================================== *)
(** ** More properties of the rates helper and of the county lookup *)
(* ===================================================================== *)

(** X15: a call makes no request when the cache is fresh and exactly one
    when it is not: a failed request is not tried again. *)
Theorem call_makes_at_most_one_request (env : Env) (s : State) :
  Requests.requests (trace (fetchMortgageRates env s))
  = match fresh_cached s (now env) with
    | Some _ => 0
    | None => 1
    end.
Proof.
  destruct (fresh_cached s (now env)) as [cached|] eqn:Hcache.
  - now rewrite (fetch_when_fresh _ _ _ Hcache).
  - rewrite (fetch_when_stale _ _ Hcache).
    now destruct (try_result (network env)).
Qed.

(** X16: an hour or more after the cache was written it is no longer
    served: the next call makes one request and ends as that request
    does, with the snapshot built from the response or with the
    fallback. *)
Theorem cache_expires_after_an_hour (env1 env2 : Env) (s : State) :
  fresh_cached s (now env1) = None ->
  detected_failure (network env1) = None ->
  (RATES_CACHE_DURATION <= now env2 - later env1)%Z ->
  fresh_cached (final (fetchMortgageRates env1 s)) (now env2) = None
  /\ Requests.requests
       (trace (fetchMortgageRates env2 (final (fetchMortgageRates env1 s))))
     = 1
  /\ fetchMortgageRates env2 (final (fetchMortgageRates env1 s))
     = match try_result (network env2) with
       | inl e => fell_back env2 (final (fetchMortgageRates env1 s)) e
       | inr snapshot =>
           fetched env2 (final (fetchMortgageRates env1 s)) snapshot
       end.
Proof.
  intros Hstale Hsuccess Hold.
  assert (Hexpired : fresh_cached (final (fetchMortgageRates env1 s)) (now env2)
                     = None).
  { rewrite (fetch_when_stale _ _ Hstale).
    destruct (success_builds _ Hsuccess)
      as (response & data & snapshot & _ & _ & _ & _ & Htry).
    rewrite Htry. unfold fresh_cached, fetched.
    cbn [final cachedRates ratesCacheTime].
    replace (now env2 - later env1 <? RATES_CACHE_DURATION)%Z with false
      by (symmetry; apply Z.ltb_ge; lia).
    now rewrite andb_false_r. }
  split; [exact Hexpired|].
  rewrite (fetch_when_stale _ _ Hexpired).
  split; [|reflexivity]. now destruct (try_result (network env2)).
Qed.

Lemma cache_expires_after_an_hour_sample :
  fresh_cached initial_state (now (call t0 (respond 200 live_body) (t0 + 180)))
  = None
  /\ detected_failure (network (call t0 (respond 200 live_body) (t0 + 180))) = None
  /\ (RATES_CACHE_DURATION
      <= now (call (t0 + 3600180) offline (t0 + 3600210))
         - later (call t0 (respond 200 live_body) (t0 + 180)))%Z
  /\ fresh_cached
       (final (fetchMortgageRates (call t0 (respond 200 live_body) (t0 + 180))
                 initial_state))
       (now (call (t0 + 3600180) offline (t0 + 3600210))) = None
  /\ Requests.requests
       (trace
          (fetchMortgageRates (call (t0 + 3600180) offline (t0 + 3600210))
             (final
                (fetchMortgageRates (call t0 (respond 200 live_body) (t0 + 180))
                   initial_state)))) = 1
  /\ fetchMortgageRates (call (t0 + 3600180) offline (t0 + 3600210))
       (final (fetchMortgageRates (call t0 (respond 200 live_body) (t0 + 180))
                 initial_state))
     = match try_result (network (call (t0 + 3600180) offline (t0 + 3600210)))
       with
       | inl e =>
           fell_back (call (t0 + 3600180) offline (t0 + 3600210))
             (final
                (fetchMortgageRates (call t0 (respond 200 live_body) (t0 + 180))
                   initial_state)) e
       | inr snapshot =>
           fetched (call (t0 + 3600180) offline (t0 + 3600210))
             (final
                (fetchMortgageRates (call t0 (respond 200 live_body) (t0 + 180))
                   initial_state)) snapshot
       end.
Proof.
  assert (Hstale : fresh_cached initial_state
                     (now (call t0 (respond 200 live_body) (t0 + 180))) = None)
    by reflexivity.
  assert (Hsuccess : detected_failure
                       (network (call t0 (respond 200 live_body) (t0 + 180)))
                     = None) by (vm_compute; reflexivity).
  assert (Hold : (RATES_CACHE_DURATION
                  <= now (call (t0 + 3600180) offline (t0 + 3600210))
                     - later (call t0 (respond 200 live_body) (t0 + 180)))%Z)
    by (vm_compute; discriminate).
  split; [exact Hstale|]. split; [exact Hsuccess|]. split; [exact Hold|].
  exact (cache_expires_after_an_hour _ _ _ Hstale Hsuccess Hold).
Defined.

(** Three calls: a response is cached, a call within the hour is served
    the same object, and after the hour, with the network down, a new
    object with the fallback is handed out while the cache keeps the
    response. *)
Example cache_after_three_calls :
  cachedRates
    (run_calls [call t0 (respond 200 live_body) (t0 + 180);
                call (t0 + 60000) offline (t0 + 60030);
                call (t0 + 3600180) offline (t0 + 3600210)])
  = Some {| addr := 0; fields := snapshot_of live_body |}
  /\ ratesCacheTime
       (run_calls [call t0 (respond 200 live_body) (t0 + 180);
                   call (t0 + 60000) offline (t0 + 60030);
                   call (t0 + 3600180) offline (t0 + 3600210)])
     = Some (t0 + 180)%Z
  /\ completion
       (fetchMortgageRates (call (t0 + 60000) offline (t0 + 60030))
          (run_calls [call t0 (respond 200 live_body) (t0 + 180)]))
     = inr {| addr := 0; fields := snapshot_of live_body |}
  /\ completion
       (fetchMortgageRates (call (t0 + 3600180) offline (t0 + 3600210))
          (run_calls [call t0 (respond 200 live_body) (t0 + 180);
                      call (t0 + 60000) offline (t0 + 60030)]))
     = inr {| addr := 1;
              fields := fallback (t0 + 3600210) |}.
Proof. vm_compute. repeat split; reflexivity. Qed.

Lemma table_values_are_counties (key : string) (v : Value) :
  TEXAS_COUNTY_TAX_RATES !! key = Some v ->
  exists name rate, v = county name rate.
Proof.
  rewrite county_entries_are_the_table. intros Hkey.
  apply elem_of_list_to_map_2 in Hkey.
  apply list_elem_of_fmap in Hkey as (entry & Hentry & _).
  injection Hentry as _ ->. eauto.
Qed.

(** X18: for every key that is not a member of [Object.prototype] the
    lookup returns a number: the tabulated rate of a county of the table,
    and the default 2.20 for a key the table does not have. *)
Theorem getCountyTaxRate_outside_the_prototype (key : string) :
  key ∉ Object_prototype ->
  is_number (getCountyTaxRate key) = true
  /\ (forall name rate,
        TEXAS_COUNTY_TAX_RATES !! key = Some (county name rate) ->
        getCountyTaxRate key = VNum rate)
  /\ (TEXAS_COUNTY_TAX_RATES !! key = None ->
      getCountyTaxRate key = VNum 2.20).
Proof.
  intros Hproto. split; [|split].
  - destruct (TEXAS_COUNTY_TAX_RATES !! key) as [v|] eqn:Hkey.
    + destruct (table_values_are_counties _ _ Hkey) as (name & rate & ->).
      now rewrite (getCountyTaxRate_tabulated _ _ _ Hkey).
    + now rewrite (getCountyTaxRate_default _ Hkey Hproto).
  - intros name rate Hkey. exact (getCountyTaxRate_tabulated _ _ _ Hkey).
  - intros Hkey. exact (getCountyTaxRate_default _ Hkey Hproto).
Qed.

Lemma getCountyTaxRate_outside_the_prototype_loving :
  ("loving" ∉ Object_prototype)
  /\ is_number (getCountyTaxRate "loving") = true
  /\ (forall name rate,
        TEXAS_COUNTY_TAX_RATES !! "loving" = Some (county name rate) ->
        getCountyTaxRate "loving" = VNum rate)
  /\ (TEXAS_COUNTY_TAX_RATES !! "loving" = None ->
      getCountyTaxRate "loving" = VNum 2.20).
Proof.
  assert (Hproto : "loving" ∉ Object_prototype).
  { unfold Object_prototype. rewrite !elem_of_cons, elem_of_nil.
    intros H. repeat (destruct H as [H|H]; [discriminate|]). exact H. }
  split; [exact Hproto|].
  exact (getCountyTaxRate_outside_the_prototype "loving" Hproto).
Defined.
